(** * pecyn: a versioned envelope around msgpack, gzip and Base64

    A shallow embedding of [pecyn/__init__.py] and the properties of its four
    entry points [pack], [unpack], [packb] and [unpackb].

    The module builds a two byte header (version, flags) in front of a
    msgpack payload that is optionally gzip-compressed, and optionally wraps
    the whole record in Base64 text.  msgpack, gzip, binascii and the
    built-in [bytes.decode] are libraries the module imports: they enter the
    development as the interface [Codecs].  The properties of the envelope
    are proved for any codecs.  Module [Ref] gives an executable instance of
    the interface, on which the envelope runs on concrete records. *)

From Stdlib Require Import ZArith NArith List String Ascii Bool Lia DecimalString.
From Stdlib.Strings Require Import Byte.
Import ListNotations.

Local Open Scope Z_scope.

(** ** Python values, exceptions and results *)

(** [bytes] objects. *)
Definition bytes := list byte.

(** [str] objects: sequences of Unicode code points. *)
Definition str := list N.

(** The fragment of Python objects that documents and the [compress]
    argument range over.  A [dict] keeps its items in insertion order.
    Floats are left out. *)
#[warnings="-register-all"] Inductive pyobj : Type :=
| PyNone
| PyBool (b : bool)
| PyInt (n : Z)
| PyStr (s : str)
| PyBytes (b : bytes)
| PyList (items : list pyobj)
| PyDict (items : list (pyobj * pyobj)).

(** Truth value testing, as [if compress:] applies it. *)
Definition truth (o : pyobj) : bool :=
  match o with
  | PyNone => false
  | PyBool b => b
  | PyInt n => negb (n =? 0)
  | PyStr s => negb (Nat.eqb (List.length s) 0)
  | PyBytes b => negb (Nat.eqb (List.length b) 0)
  | PyList items => negb (Nat.eqb (List.length items) 0)
  | PyDict items => negb (Nat.eqb (List.length items) 0)
  end.

(** Truth value of an [int], as [if (flags & _FLAG_GZIP):] applies it. *)
Definition truth_int (n : Z) : bool := negb (n =? 0).

(** A raised exception: the name of its class and its message. *)
Record exn : Type := Exn { exn_class : string; exn_msg : string }.

(** The outcome of a call: a returned value or a raised exception. *)
Inductive result (A : Type) : Type :=
| Ok (a : A)
| Raise (e : exn).
Arguments Ok {A} a.
Arguments Raise {A} e.

Definition bind {A B : Type} (r : result A) (k : A -> result B) : result B :=
  match r with
  | Ok a => k a
  | Raise e => Raise e
  end.

Notation "x <- r ;; k" := (bind r (fun x => k))
  (at level 61, r at next level, right associativity).
Notation "' p <- r ;; k" := (bind r (fun x => let 'p := x in k))
  (at level 61, p pattern, r at next level, right associativity).

(** A keyword argument: [None] when the caller omitted it. *)
Definition keyword (default : pyobj) (arg : option pyobj) : pyobj :=
  match arg with
  | Some v => v
  | None => default
  end.

(** ['{}'.format(n)] for an [int]. *)
Definition format_int (n : Z) : string := NilZero.string_of_int (Z.to_int n).

Definition int_of_byte (b : byte) : Z := Z.of_N (Byte.to_N b).

(** ** The [struct] calls of the module *)

Definition struct_error (msg : string) : exn := Exn "struct.error" msg.

(** One [B] field of [struct.pack]: an unsigned byte, range checked. *)
Definition pack_ubyte (n : Z) : result byte :=
  if (0 <=? n) && (n <=? 255) then
    match Byte.of_N (Z.to_N n) with
    | Some b => Ok b
    | None => Raise (struct_error "ubyte format requires 0 <= number <= 255")
    end
  else Raise (struct_error "ubyte format requires 0 <= number <= 255").

(** [struct.pack('BB', a, b)]. *)
Definition struct_pack_BB (a b : Z) : result bytes :=
  x <- pack_ubyte a ;;
  y <- pack_ubyte b ;;
  Ok [x; y].

(** [struct.unpack('BB', buf)]. *)
Definition struct_unpack_BB (buf : bytes) : result (Z * Z) :=
  match buf with
  | [x; y] => Ok (int_of_byte x, int_of_byte y)
  | _ => Raise (struct_error "unpack requires a buffer of 2 bytes")
  end.

(** ** The imported codecs *)

(** The library calls of the module, with the keyword arguments the module
    passes.  [gzip.compress] stamps the member header with the clock, which
    is its last argument here. *)
Class Codecs : Type := {
  (** [msgpack.packb(doc, use_bin_type=...)] *)
  msgpack_packb : pyobj -> bool -> result bytes;
  (** [msgpack.unpackb(blob, raw=...)] *)
  msgpack_unpackb : bytes -> bool -> result pyobj;
  (** [gzip.compress(data, compresslevel)] at clock reading [mtime] *)
  gzip_compress : bytes -> Z -> Z -> result bytes;
  (** [gzip.decompress(data)] *)
  gzip_decompress : bytes -> result bytes;
  (** [binascii.b2a_base64(data, newline=...)] *)
  b2a_base64 : bytes -> bool -> bytes;
  (** [binascii.a2b_base64(text)] *)
  a2b_base64 : str -> result bytes;
  (** [data.decode()] *)
  bytes_decode : bytes -> result str
}.

(** ** The module *)

Module Pecyn.

Definition _PACK_VERSION : Z := 0x00.

Definition _FLAG_MSGPACK : Z := Z.shiftl 0x01 0.
Definition _FLAG_GZIP : Z := Z.shiftl 0x01 4.

Definition _HEADER_BLOCK_SIZE : Z := 2.
Definition _GZIP_COMPRESSION_LEVEL : Z := 3.

(** [record[:n]] and [record[n:]] for [n >= 0]. *)
Definition slice_to (n : Z) (record : bytes) : bytes := firstn (Z.to_nat n) record.
Definition slice_from (n : Z) (record : bytes) : bytes := skipn (Z.to_nat n) record.

Section Envelope.

Context {codecs : Codecs}.

(** The reading of [time.time()] during the call. *)
Variable now : Z.

(** [packb(doc, compress=None)] *)
Definition packb (doc : pyobj) (compress : option pyobj) : result bytes :=
  let compress := keyword PyNone compress in
  let flags := _FLAG_MSGPACK in
  blob <- msgpack_packb doc true ;;
  '(blob, flags) <-
    (if truth compress
     then blob <- gzip_compress blob _GZIP_COMPRESSION_LEVEL now ;;
          Ok (blob, Z.lor flags _FLAG_GZIP)
     else Ok (blob, flags)) ;;
  header_block <- struct_pack_BB _PACK_VERSION flags ;;
  let record := header_block ++ blob in
  Ok record.

(** [unpackb(record)] *)
Definition unpackb (record : bytes) : result pyobj :=
  if Z.of_nat (List.length record) <? _HEADER_BLOCK_SIZE
  then Raise (Exn "ValueError" "Invalid header block")
  else
    '(version, flags) <- struct_unpack_BB (slice_to _HEADER_BLOCK_SIZE record) ;;
    if negb (version =? _PACK_VERSION)
    then Raise (Exn "ValueError"
                  ("Unsupported pack version: " ++ format_int version
                   ++ " != " ++ format_int _PACK_VERSION))
    else
      blob <- (if truth_int (Z.land flags _FLAG_GZIP)
               then gzip_decompress (slice_from _HEADER_BLOCK_SIZE record)
               else Ok (slice_from _HEADER_BLOCK_SIZE record)) ;;
      if negb (truth_int (Z.land flags _FLAG_MSGPACK))
      then Raise (Exn "ValueError"
                    ("Unsupported document format: " ++ format_int flags))
      else msgpack_unpackb blob false.

(** [pack(doc, compress=None)] *)
Definition pack (doc : pyobj) (compress : option pyobj) : result str :=
  let compress := keyword PyNone compress in
  record <- packb doc (Some compress) ;;
  bytes_decode (b2a_base64 record false).

(** [unpack(record)] *)
Definition unpack (record : str) : result pyobj :=
  data <- a2b_base64 record ;;
  unpackb data.

End Envelope.

End Pecyn.

(** ** What a round trip asks of the codecs

    The envelope restores a document when the codecs restore what it hands
    them.  Each requirement is about one call on one input. *)

Section Contract.

Context {codecs : Codecs}.

(** msgpack represents [doc]: unpacking what it packs gives [doc] back. *)
Definition msgpack_restores (doc : pyobj) : Prop :=
  (blob <- msgpack_packb doc true ;; msgpack_unpackb blob false) = Ok doc.

(** gzip restores [blob] when it is compressed at clock reading [now]. *)
Definition gzip_restores (now : Z) (blob : bytes) : Prop :=
  (data <- gzip_compress blob Pecyn._GZIP_COMPRESSION_LEVEL now ;;
   gzip_decompress data) = Ok blob.

(** Base64 text restores [record]. *)
Definition base64_restores (record : bytes) : Prop :=
  (text <- bytes_decode (b2a_base64 record false) ;; a2b_base64 text) = Ok record.

End Contract.

(** ** A reference instance of the codecs

    [msgpack], [gzip] and [binascii] are libraries that the module imports;
    their code is not part of it.  The properties of the envelope are
    stated over [Codecs] and hold whatever the libraries do.  This instance
    gives the envelope something to run on; it is written from the formats
    and is not the libraries themselves:

    - UTF-8 (RFC 3629) and Base64 as [binascii] reads and writes it;
    - CRC-32 and the gzip member layout (RFC 1952), with a deflate stream
      (RFC 1951) of stored blocks only.  zlib writes Huffman-coded blocks,
      so [Gzip.compress] returns other bytes than [gzip.compress] does,
      and [Gzip.decompress] does not read what [gzip.compress] wrote: on a
      Huffman-coded block it raises [Unmodelled];
    - msgpack without floats and extension types, on which it raises
      [Unmodelled], with the nesting limit of the pure Python packer and
      no nesting limit in the unpacker, where the C extension has limits of
      its own.

    Messages of library exceptions are abbreviated.  What is proved of the
    instance below is proved of these definitions, not of the libraries. *)

Module Ref.

Local Open Scope N_scope.

Definition nb (b : byte) : N := Byte.to_N b.

(** The byte of value [n mod 256]. *)
Definition bn (n : N) : byte :=
  match Byte.of_N (N.land n 0xff) with
  | Some b => b
  | None => x00
  end.

Definition unmodelled {A : Type} (what : string) : result A :=
  Raise (Exn "Unmodelled" what).

(** The outcome of a definition by recursion on fuel that was given too
    little of it. *)
Definition out_of_fuel {A : Type} : result A := unmodelled "fuel".

(** [n] as [k] bytes, most significant first. *)
Fixpoint be_bytes (k : nat) (n : N) : bytes :=
  match k with
  | O => []
  | S k' => bn (N.shiftr n (8 * N.of_nat k')) :: be_bytes k' n
  end.

(** [n] as [k] bytes, least significant first. *)
Fixpoint le_bytes (k : nat) (n : N) : bytes :=
  match k with
  | O => []
  | S k' => bn n :: le_bytes k' (N.shiftr n 8)
  end.

(** Equality of two lists, item by item. *)
Fixpoint list_eqb {A : Type} (eqb : A -> A -> bool) (a b : list A) : bool :=
  match a, b with
  | [], [] => true
  | x :: a', y :: b' => eqb x y && list_eqb eqb a' b'
  | _, _ => false
  end.

Definition be_value (bs : bytes) : N :=
  fold_left (fun acc b => N.lor (N.shiftl acc 8) (nb b)) bs 0.

Definition le_value (bs : bytes) : N := be_value (rev bs).

(** *** UTF-8 *)

Module Utf8.

Definition encode_error : exn :=
  Exn "UnicodeEncodeError" "'utf-8' codec can't encode character: surrogates not allowed".
Definition decode_error : exn :=
  Exn "UnicodeDecodeError" "'utf-8' codec can't decode byte".

Definition is_surrogate (c : N) : bool := (0xD800 <=? c) && (c <=? 0xDFFF).

Definition cont (c : N) (shift : N) : byte :=
  bn (N.lor 0x80 (N.land (N.shiftr c shift) 0x3F)).

Definition encode_point (c : N) : result bytes :=
  if c <? 0x80 then Ok [bn c]
  else if c <? 0x800 then Ok [bn (N.lor 0xC0 (N.shiftr c 6)); cont c 0]
  else if c <? 0x10000 then
    if is_surrogate c then Raise encode_error
    else Ok [bn (N.lor 0xE0 (N.shiftr c 12)); cont c 6; cont c 0]
  else if c <=? 0x10FFFF then
    Ok [bn (N.lor 0xF0 (N.shiftr c 18)); cont c 12; cont c 6; cont c 0]
  else Raise encode_error.

(** [s.encode('utf-8')] *)
Fixpoint encode (s : str) : result bytes :=
  match s with
  | [] => Ok []
  | c :: s' =>
      bind (encode_point c) (fun h => bind (encode s') (fun t => Ok (h ++ t)%list))
  end.

Definition is_cont (b : byte) : bool := N.land (nb b) 0xC0 =? 0x80.
Definition low6 (b : byte) : N := N.land (nb b) 0x3F.

(** [data.decode('utf-8')], strict: overlong forms, surrogates and code
    points above U+10FFFF are rejected. *)
Fixpoint decode (data : bytes) : result str :=
  match data with
  | [] => Ok []
  | b0 :: r0 =>
      let n0 := nb b0 in
      if n0 <? 0x80 then bind (decode r0) (fun t => Ok (n0 :: t))
      else if n0 <? 0xC0 then Raise decode_error
      else if n0 <? 0xE0 then
        match r0 with
        | b1 :: r1 =>
            let c := N.lor (N.shiftl (N.land n0 0x1F) 6) (low6 b1) in
            if is_cont b1 && (0x80 <=? c)
            then bind (decode r1) (fun t => Ok (c :: t))
            else Raise decode_error
        | _ => Raise decode_error
        end
      else if n0 <? 0xF0 then
        match r0 with
        | b1 :: b2 :: r2 =>
            let c := N.lor (N.shiftl (N.land n0 0x0F) 12)
                       (N.lor (N.shiftl (low6 b1) 6) (low6 b2)) in
            if is_cont b1 && is_cont b2 && (0x800 <=? c) && negb (is_surrogate c)
            then bind (decode r2) (fun t => Ok (c :: t))
            else Raise decode_error
        | _ => Raise decode_error
        end
      else if n0 <? 0xF8 then
        match r0 with
        | b1 :: b2 :: b3 :: r3 =>
            let c := N.lor (N.shiftl (N.land n0 0x07) 18)
                       (N.lor (N.shiftl (low6 b1) 12)
                          (N.lor (N.shiftl (low6 b2) 6) (low6 b3))) in
            if is_cont b1 && is_cont b2 && is_cont b3
               && (0x10000 <=? c) && (c <=? 0x10FFFF)
            then bind (decode r3) (fun t => Ok (c :: t))
            else Raise decode_error
        | _ => Raise decode_error
        end
      else Raise decode_error
  end.

End Utf8.

(** *** Base64, as [binascii] implements it *)

Module Base64.

Definition binascii_Error (msg : string) : exn := Exn "binascii.Error" msg.

(** The alphabet: the character of a six bit value. *)
Definition b2a_char (v : N) : byte :=
  if v <? 26 then bn (65 + v)
  else if v <? 52 then bn (97 + (v - 26))
  else if v <? 62 then bn (48 + (v - 52))
  else if v =? 62 then "+"%byte
  else "/"%byte.

(** The six bit value of a character, [None] outside the alphabet. *)
Definition a2b_char (c : N) : option N :=
  if (65 <=? c) && (c <=? 90) then Some (c - 65)
  else if (97 <=? c) && (c <=? 122) then Some (c - 97 + 26)
  else if (48 <=? c) && (c <=? 57) then Some (c - 48 + 52)
  else if c =? 43 then Some 62
  else if c =? 47 then Some 63
  else None.

Definition sextet (n : N) (shift : N) : byte := b2a_char (N.land (N.shiftr n shift) 0x3F).

(** Three bytes as one 24 bit group. *)
Definition group (a b c : N) : N :=
  N.lor (N.shiftl a 16) (N.lor (N.shiftl b 8) c).

(** Four characters for every three bytes; a last group of one or two
    bytes is filled with zero bits and padded with [=]. *)
Fixpoint encode (data : bytes) : bytes :=
  match data with
  | [] => []
  | [a] =>
      let n := group (nb a) 0 0 in
      [sextet n 18; sextet n 12; "="%byte; "="%byte]
  | [a; b] =>
      let n := group (nb a) (nb b) 0 in
      [sextet n 18; sextet n 12; sextet n 6; "="%byte]
  | a :: b :: c :: rest =>
      let n := group (nb a) (nb b) (nb c) in
      sextet n 18 :: sextet n 12 :: sextet n 6 :: sextet n 0 :: encode rest
  end.

(** [binascii.b2a_base64(data, newline=...)] *)
Definition b2a_base64 (data : bytes) (newline : bool) : bytes :=
  (encode data ++ (if newline then [x0a] else []))%list.

(** The decoding loop of [binascii.a2b_base64] outside strict mode:
    characters outside the alphabet are skipped, a complete pad sequence
    ends the input. [out] is the output so far, last byte first. *)
Fixpoint a2b_loop (text : list N) (quad_pos : N) (leftchar : N) (pads : N)
    (out : bytes) : result bytes :=
  match text with
  | [] =>
      if quad_pos =? 0 then Ok (rev out)
      else if quad_pos =? 1
      then Raise (binascii_Error
             "Invalid base64-encoded string: number of data characters cannot be 1 more than a multiple of 4")
      else Raise (binascii_Error "Incorrect padding")
  | this_ch :: rest =>
      if this_ch =? 61 then
        if 2 <=? quad_pos then
          if 4 <=? quad_pos + (pads + 1) then Ok (rev out)
          else a2b_loop rest quad_pos leftchar (pads + 1) out
        else a2b_loop rest quad_pos leftchar pads out
      else
        match a2b_char this_ch with
        | None => a2b_loop rest quad_pos leftchar pads out
        | Some v =>
            if quad_pos =? 0 then a2b_loop rest 1 v 0 out
            else if quad_pos =? 1 then
              a2b_loop rest 2 (N.land v 0x0f) 0
                (bn (N.lor (N.shiftl leftchar 2) (N.shiftr v 4)) :: out)
            else if quad_pos =? 2 then
              a2b_loop rest 3 (N.land v 0x03) 0
                (bn (N.lor (N.shiftl leftchar 4) (N.shiftr v 2)) :: out)
            else
              a2b_loop rest 0 0 0 (bn (N.lor (N.shiftl leftchar 6) v) :: out)
        end
  end.

(** [binascii.a2b_base64(text)] for a [str] argument. *)
Definition a2b_base64 (text : str) : result bytes :=
  if forallb (fun c => c <? 128) text
  then a2b_loop text 0 0 0 []
  else Raise (Exn "ValueError" "string argument should contain only ASCII characters").

End Base64.

(** *** CRC-32, as [zlib.crc32] computes it *)

Module Crc32.

Definition step (c : N) : N :=
  if N.testbit c 0 then N.lxor (N.shiftr c 1) 0xEDB88320 else N.shiftr c 1.

Definition update (crc : N) (b : byte) : N :=
  let c := N.lxor crc (nb b) in
  step (step (step (step (step (step (step (step c))))))).

Definition crc32 (data : bytes) : N :=
  N.lxor (fold_left update data 0xFFFFFFFF) 0xFFFFFFFF.

End Crc32.

(** *** gzip members over stored deflate blocks *)

Module Gzip.

Definition BadGzipFile (msg : string) : exn := Exn "gzip.BadGzipFile" msg.
Definition zlib_error (msg : string) : exn := Exn "zlib.error" msg.
Definition EOFError : exn :=
  Exn "EOFError" "Compressed file ended before the end-of-stream marker was reached".

Definition FHCRC : N := 2.
Definition FEXTRA : N := 4.
Definition FNAME : N := 8.
Definition FCOMMENT : N := 16.

(** The first [n] items of [l], and the rest. *)
Fixpoint split_at (n : N) (l : bytes) : bytes * bytes :=
  match l with
  | [] => ([], [])
  | x :: l' =>
      if n =? 0 then ([], l)
      else let '(a, b) := split_at (n - 1) l' in (x :: a, b)
  end.

Definition len (l : bytes) : N := N.of_nat (List.length l).

(** A raw deflate stream of stored blocks, at most 65535 bytes each. *)
Fixpoint deflate_stored (fuel : nat) (data : bytes) : bytes :=
  let '(chunk, rest) := split_at 65535 data in
  let n := len chunk in
  let block (final : byte) :=
    (final :: le_bytes 2 n ++ le_bytes 2 (N.lxor n 0xFFFF) ++ chunk)%list in
  match rest, fuel with
  | _ :: _, S fuel' => (block x00 ++ deflate_stored fuel' rest)%list
  | _, _ => block x01
  end.

(** In the place of [gzip.compress(data, compresslevel, mtime=None)] when
    the clock reads [mtime]: the simple header, a deflate stream, CRC-32 and
    length.  The deflate stream is made of stored blocks at every level;
    zlib searches for matches and writes Huffman-coded blocks, so that the
    result is a gzip member of the same data and the same header fields,
    but not the bytes, nor the number of bytes, that the library returns. *)
Definition compress (data : bytes) (compresslevel : Z) (mtime : Z) : result bytes :=
  if negb ((-1 <=? compresslevel)%Z && (compresslevel <=? 9)%Z)
  then Raise (zlib_error "Bad compression level")
  else if negb ((0 <=? mtime)%Z && (mtime <? 2 ^ 32)%Z)
  then Raise (struct_error "argument out of range")
  else
    let xfl : byte :=
      if (compresslevel =? 9)%Z then x02
      else if (compresslevel =? 1)%Z then x04
      else x00 in
    let header :=
      ([x1f; x8b; x08; x00] ++ le_bytes 4 (Z.to_N mtime) ++ [xfl; xff])%list in
    let trailer :=
      (le_bytes 4 (Crc32.crc32 data) ++ le_bytes 4 (N.land (len data) 0xffffffff))%list in
    Ok (header ++ deflate_stored (List.length data) data ++ trailer)%list.

(** What a decompression object holds after it was fed all the input. *)
Inductive inflated : Type :=
| AtEof (decompressed unused_data : bytes)
| NotAtEof.

(** Raw inflate, of stored blocks only.  A block with Huffman codes, which
    is what zlib writes and reads, is answered with [Unmodelled]: this is
    not [zlib.decompressobj], and a record that [gzip.compress] built is
    not decoded here. *)
Fixpoint inflate (fuel : nat) (data : bytes) (out : bytes) : result inflated :=
  match fuel, data with
  | _, [] => Ok NotAtEof
  | O, _ => out_of_fuel
  | S fuel', h :: r =>
      let bfinal := N.testbit (nb h) 0 in
      let btype := N.land (N.shiftr (nb h) 1) 3 in
      if btype =? 0 then
        match r with
        | l0 :: l1 :: n0 :: n1 :: r' =>
            let n := le_value [l0; l1] in
            if negb (le_value [n0; n1] =? N.lxor n 0xFFFF)
            then Raise (zlib_error
                   "Error -3 while decompressing data: invalid stored block lengths")
            else
              let '(chunk, rest) := split_at n r' in
              if len chunk <? n then Ok NotAtEof
              else if bfinal then Ok (AtEof (out ++ chunk)%list rest)
              else inflate fuel' rest (out ++ chunk)%list
        | _ => Ok NotAtEof
        end
      else if btype =? 3 then
        Raise (zlib_error "Error -3 while decompressing data: invalid block type")
      else unmodelled "deflate block with Huffman codes"
  end.

(** [_read_exact(fp, n)] *)
Definition read_exact (n : N) (data : bytes) : result (bytes * bytes) :=
  let '(a, b) := split_at n data in
  if len a <? n then Raise EOFError else Ok (a, b).

(** Skip a zero-terminated field; the end of input ends it as well. *)
Fixpoint skip_cstring (data : bytes) : bytes :=
  match data with
  | [] => []
  | s :: r => if nb s =? 0 then r else skip_cstring r
  end.

Definition flag_set (flag mask : N) : bool := negb (N.land flag mask =? 0).

Definition bytes_eqb (a b : bytes) : bool := list_eqb Byte.eqb a b.

(** [_read_gzip_header(fp)]: [None] at the end of input, else what follows
    the header. *)
Definition read_gzip_header (data : bytes) : result (option bytes) :=
  let '(magic, r) := split_at 2 data in
  if bytes_eqb magic [] then Ok None
  else if negb (bytes_eqb magic [x1f; x8b])
  then Raise (BadGzipFile "Not a gzipped file")
  else
    '(fixed, r) <- read_exact 8 r ;;
    let method := nb (nth 0 fixed x00) in
    let flag := nb (nth 1 fixed x00) in
    if negb (method =? 8) then Raise (BadGzipFile "Unknown compression method")
    else
      r <- (if flag_set flag FEXTRA
            then '(xl, r) <- read_exact 2 r ;;
                 '(_, r) <- read_exact (le_value xl) r ;;
                 Ok r
            else Ok r) ;;
      let r := if flag_set flag FNAME then skip_cstring r else r in
      let r := if flag_set flag FCOMMENT then skip_cstring r else r in
      r <- (if flag_set flag FHCRC
            then '(_, r) <- read_exact 2 r ;; Ok r
            else Ok r) ;;
      Ok (Some r).

(** [data.lstrip(b'\x00')] *)
Fixpoint lstrip_zero (data : bytes) : bytes :=
  match data with
  | [] => []
  | s :: r => if nb s =? 0 then lstrip_zero r else data
  end.

(** The member loop of [gzip.decompress]. *)
Fixpoint decompress_members (fuel : nat) (data : bytes) (members : bytes)
    : result bytes :=
  match fuel with
  | O => out_of_fuel
  | S fuel' =>
      h <- read_gzip_header data ;;
      match h with
      | None => Ok members
      | Some body =>
          i <- inflate (S (List.length body)) body [] ;;
          match i with
          | NotAtEof => Raise EOFError
          | AtEof decompressed unused_data =>
              if len unused_data <? 8 then Raise EOFError
              else
                let '(crc, r) := split_at 4 unused_data in
                let '(length, r) := split_at 4 r in
                if negb (le_value crc =? Crc32.crc32 decompressed)
                then Raise (BadGzipFile "CRC check failed")
                else if negb (le_value length =? N.land (len decompressed) 0xffffffff)
                then Raise (BadGzipFile "Incorrect length of data produced")
                else decompress_members fuel' (lstrip_zero r)
                       (members ++ decompressed)%list
          end
      end
  end.

(** [gzip.decompress(data)] *)
Definition decompress (data : bytes) : result bytes :=
  decompress_members (S (List.length data)) data [].

End Gzip.

(** *** msgpack, after the pure Python packer and unpacker of msgpack 1.0

    Floats, extension types and Python's recursion limit are left out.  The
    library that runs is, as a rule, the C extension, whose nesting limits
    and messages are its own. *)

Module Msgpack.

Definition ValueError (msg : string) : exn := Exn "ValueError" msg.

Definition DEFAULT_RECURSE_LIMIT : Z := 511.

Definition len {A : Type} (l : list A) : N := N.of_nat (List.length l).

(** The [int] cases of [Packer._pack]. *)
Definition pack_int (n : Z) : result bytes :=
  let twos (k : nat) := be_bytes k (Z.to_N (n mod 2 ^ (8 * Z.of_nat k))) in
  (if (0 <=? n) && (n <? 0x80) then Ok (twos 1%nat)
   else if (-0x20 <=? n) && (n <? 0) then Ok (twos 1%nat)
   else if (0x80 <=? n) && (n <=? 0xFF) then Ok (xcc :: twos 1%nat)
   else if (-0x80 <=? n) && (n <? 0) then Ok (xd0 :: twos 1%nat)
   else if (0xFF <? n) && (n <=? 0xFFFF) then Ok (xcd :: twos 2%nat)
   else if (-0x8000 <=? n) && (n <? -0x80) then Ok (xd1 :: twos 2%nat)
   else if (0xFFFF <? n) && (n <=? 0xFFFFFFFF) then Ok (xce :: twos 4%nat)
   else if (-0x80000000 <=? n) && (n <? -0x8000) then Ok (xd2 :: twos 4%nat)
   else if (0xFFFFFFFF <? n) && (n <=? 0xFFFFFFFFFFFFFFFF) then Ok (xcf :: twos 8%nat)
   else if (-0x8000000000000000 <=? n) && (n <? -0x80000000) then Ok (xd3 :: twos 8%nat)
   else Raise (Exn "OverflowError" "Integer value out of range"))%Z.

Definition _pack_array_header (n : N) : result bytes :=
  if n <=? 0x0F then Ok [bn (0x90 + n)]
  else if n <=? 0xFFFF then Ok (xdc :: be_bytes 2 n)
  else if n <=? 0xFFFFFFFF then Ok (xdd :: be_bytes 4 n)
  else Raise (ValueError "Array is too large").

Definition _pack_map_header (n : N) : result bytes :=
  if n <=? 0x0F then Ok [bn (0x80 + n)]
  else if n <=? 0xFFFF then Ok (xde :: be_bytes 2 n)
  else if n <=? 0xFFFFFFFF then Ok (xdf :: be_bytes 4 n)
  else Raise (ValueError "Dict is too large").

Definition _pack_raw_header (use_bin_type : bool) (n : N) : result bytes :=
  if n <=? 0x1F then Ok [bn (0xA0 + n)]
  else if use_bin_type && (n <=? 0xFF) then Ok (xd9 :: be_bytes 1 n)
  else if n <=? 0xFFFF then Ok (xda :: be_bytes 2 n)
  else if n <=? 0xFFFFFFFF then Ok (xdb :: be_bytes 4 n)
  else Raise (ValueError "Raw is too large").

Definition _pack_bin_header (use_bin_type : bool) (n : N) : result bytes :=
  if negb use_bin_type then _pack_raw_header use_bin_type n
  else if n <=? 0xFF then Ok (xc4 :: be_bytes 1 n)
  else if n <=? 0xFFFF then Ok (xc5 :: be_bytes 2 n)
  else if n <=? 0xFFFFFFFF then Ok (xc6 :: be_bytes 4 n)
  else Raise (ValueError "Bin is too large").

(** In the place of [Packer._pack(obj, nest_limit)], with the nesting limit
    as the pure Python packer counts it, from [DEFAULT_RECURSE_LIMIT];
    the C extension may accept or refuse a document at another depth. *)
Fixpoint _pack (use_bin_type : bool) (obj : pyobj) (nest_limit : Z) {struct obj}
    : result bytes :=
  if (nest_limit <? 0)%Z then Raise (ValueError "recursion limit exceeded")
  else
    match obj with
    | PyNone => Ok [xc0]
    | PyBool b => Ok [if b then xc3 else xc2]
    | PyInt n => pack_int n
    | PyBytes b =>
        if 2 ^ 32 <=? len b then Raise (ValueError "bytes is too large")
        else h <- _pack_bin_header use_bin_type (len b) ;; Ok (h ++ b)%list
    | PyStr s =>
        data <- Utf8.encode s ;;
        if 2 ^ 32 <=? len data then Raise (ValueError "String is too large")
        else h <- _pack_raw_header use_bin_type (len data) ;; Ok (h ++ data)%list
    | PyList items =>
        h <- _pack_array_header (len items) ;;
        body <- (fix each (l : list pyobj) : result bytes :=
                   match l with
                   | [] => Ok []
                   | x :: l' =>
                       a <- _pack use_bin_type x (nest_limit - 1)%Z ;;
                       b <- each l' ;;
                       Ok (a ++ b)%list
                   end) items ;;
        Ok (h ++ body)%list
    | PyDict items =>
        h <- _pack_map_header (len items) ;;
        body <- (fix each (l : list (pyobj * pyobj)) : result bytes :=
                   match l with
                   | [] => Ok []
                   | (k, v) :: l' =>
                       a <- _pack use_bin_type k (nest_limit - 1 - 1)%Z ;;
                       b <- _pack use_bin_type v (nest_limit - 1 - 1)%Z ;;
                       c <- each l' ;;
                       Ok (a ++ b ++ c)%list
                   end) items ;;
        Ok (h ++ body)%list
    end.

(** [msgpack.packb(obj, use_bin_type=...)] *)
Definition packb (obj : pyobj) (use_bin_type : bool) : result bytes :=
  _pack use_bin_type obj DEFAULT_RECURSE_LIMIT.

Definition incomplete {A : Type} : result A :=
  Raise (ValueError "Unpack failed: incomplete input").

(** [Unpacker._read(n)]: running out of data ends [unpackb] with its
    [ValueError]. *)
Definition _read (n : N) (data : bytes) : result (bytes * bytes) :=
  let '(a, b) := Gzip.split_at n data in
  if len a <? n then incomplete else Ok (a, b).

Definition read_uint (k : N) (data : bytes) : result (N * bytes) :=
  '(a, b) <- _read k data ;;
  Ok (be_value a, b).

Definition read_sint (k : N) (data : bytes) : result (Z * bytes) :=
  '(a, b) <- _read k data ;;
  let u := Z.of_N (be_value a) in
  let m := (2 ^ (8 * Z.of_N k))%Z in
  Ok (if (u <? m / 2)%Z then u else (u - m)%Z, b).

(** The kinds of header [Unpacker._read_header] tells apart. *)
Inductive header : Type :=
| Immediate (obj : pyobj)
| RawHeader (n : N)
| BinHeader (n : N)
| ArrayHeader (n : N)
| MapHeader (n : N).

Definition exceeds (what : string) : exn :=
  ValueError ("length exceeds " ++ what)%string.

(** The limit [unpackb] puts on lengths, from the size of its input. *)
Definition max_len (size : N) : N := if size =? 0 then 2 ^ 31 - 1 else size.

(** A length read from a header, refused above [limit]. *)
Definition checked_len (what : string) (limit : N) (h : N -> header)
    (r : result (N * bytes)) : result (header * bytes) :=
  '(n, rest) <- r ;;
  if limit <? n then Raise (exceeds what) else Ok (h n, rest).

(** An integer read from a header. *)
Definition as_int {A : Type} (to_Z : A -> Z) (r : result (A * bytes))
    : result (header * bytes) :=
  '(n, rest) <- r ;;
  Ok (Immediate (PyInt (to_Z n)), rest).

(** In the place of [Unpacker._read_header()], with the limits [unpackb]
    derives from the size [size] of its input.  The headers of floats
    ([0xCA], [0xCB]) and of extension types, which the library reads, are
    answered with [Unmodelled], and the message for the byte [0xC1] is not
    the library's. *)
Definition _read_header (size : N) (data : bytes) : result (header * bytes) :=
  let max_len := max_len size in
  let str_len := checked_len "max_str_len" max_len RawHeader in
  let bin_len := checked_len "max_bin_len" max_len BinHeader in
  let array_len := checked_len "max_array_len" max_len ArrayHeader in
  let map_len := checked_len "max_map_len" (max_len / 2) MapHeader in
  let int_of := as_int Z.of_N in
  let sint_of := as_int (fun n : Z => n) in
  match data with
  | [] => incomplete
  | b0 :: rest =>
      let b := nb b0 in
      if N.land b 0x80 =? 0 then Ok (Immediate (PyInt (Z.of_N b)), rest)
      else if N.land b 0xE0 =? 0xE0
      then Ok (Immediate (PyInt (-1 - Z.of_N (N.lxor b 0xFF))), rest)
      else if N.land b 0xE0 =? 0xA0 then str_len (Ok (N.land b 0x1F, rest))
      else if N.land b 0xF0 =? 0x90 then array_len (Ok (N.land b 0x0F, rest))
      else if N.land b 0xF0 =? 0x80 then map_len (Ok (N.land b 0x0F, rest))
      else if b =? 0xC0 then Ok (Immediate PyNone, rest)
      else if b =? 0xC2 then Ok (Immediate (PyBool false), rest)
      else if b =? 0xC3 then Ok (Immediate (PyBool true), rest)
      else if b =? 0xC4 then bin_len (read_uint 1 rest)
      else if b =? 0xC5 then bin_len (read_uint 2 rest)
      else if b =? 0xC6 then bin_len (read_uint 4 rest)
      else if (0xC7 <=? b) && (b <=? 0xC9) then unmodelled "msgpack extension type"
      else if (0xCA <=? b) && (b <=? 0xCB) then unmodelled "msgpack float"
      else if b =? 0xCC then int_of (read_uint 1 rest)
      else if b =? 0xCD then int_of (read_uint 2 rest)
      else if b =? 0xCE then int_of (read_uint 4 rest)
      else if b =? 0xCF then int_of (read_uint 8 rest)
      else if b =? 0xD0 then sint_of (read_sint 1 rest)
      else if b =? 0xD1 then sint_of (read_sint 2 rest)
      else if b =? 0xD2 then sint_of (read_sint 4 rest)
      else if b =? 0xD3 then sint_of (read_sint 8 rest)
      else if (0xD4 <=? b) && (b <=? 0xD8) then unmodelled "msgpack extension type"
      else if b =? 0xD9 then str_len (read_uint 1 rest)
      else if b =? 0xDA then str_len (read_uint 2 rest)
      else if b =? 0xDB then str_len (read_uint 4 rest)
      else if b =? 0xDC then array_len (read_uint 2 rest)
      else if b =? 0xDD then array_len (read_uint 4 rest)
      else if b =? 0xDE then map_len (read_uint 2 rest)
      else if b =? 0xDF then map_len (read_uint 4 rest)
      else Raise (Exn "msgpack.FormatError" "Unknown header: 0xc1")
  end.

(** Equality of two map keys that are each a [str] or a [bytes]. *)
Definition key_eqb (a b : pyobj) : bool :=
  match a, b with
  | PyStr s, PyStr t => list_eqb N.eqb s t
  | PyBytes s, PyBytes t => list_eqb Byte.eqb s t
  | _, _ => false
  end.

(** [ret[key] = value] on a [dict]. *)
Fixpoint dict_set (items : list (pyobj * pyobj)) (key value : pyobj)
    : list (pyobj * pyobj) :=
  match items with
  | [] => [(key, value)]
  | (k, v) :: r =>
      if key_eqb k key then (k, value) :: r else (k, v) :: dict_set r key value
  end.

Definition allowed_map_key (key : pyobj) : bool :=
  match key with
  | PyStr _ | PyBytes _ => true
  | _ => false
  end.

(** In the place of [Unpacker._unpack()]; [_unpack_items] and
    [_unpack_pairs] are its loops over the items of an array and of a map.
    There is no limit on nesting here; the C extension raises its
    [StackError] on input nested too deep. *)
Fixpoint _unpack (fuel : nat) (raw : bool) (size : N) (data : bytes)
    : result (pyobj * bytes) :=
  match fuel with
  | O => out_of_fuel
  | S fuel' =>
      '(h, rest) <- _read_header size data ;;
      match h with
      | Immediate obj => Ok (obj, rest)
      | RawHeader n =>
          '(obj, rest) <- _read n rest ;;
          if raw then Ok (PyBytes obj, rest)
          else s <- Utf8.decode obj ;; Ok (PyStr s, rest)
      | BinHeader n =>
          '(obj, rest) <- _read n rest ;;
          Ok (PyBytes obj, rest)
      | ArrayHeader n =>
          '(ret, rest) <- _unpack_items fuel' raw size (N.to_nat n) rest ;;
          Ok (PyList ret, rest)
      | MapHeader n =>
          '(ret, rest) <- _unpack_pairs fuel' raw size (N.to_nat n) rest [] ;;
          Ok (PyDict ret, rest)
      end
  end
with _unpack_items (fuel : nat) (raw : bool) (size : N) (n : nat) (data : bytes)
    : result (list pyobj * bytes) :=
  match fuel, n with
  | _, O => Ok ([], data)
  | O, _ => out_of_fuel
  | S fuel', S n' =>
      '(x, rest) <- _unpack fuel' raw size data ;;
      '(xs, rest) <- _unpack_items fuel' raw size n' rest ;;
      Ok (x :: xs, rest)
  end
with _unpack_pairs (fuel : nat) (raw : bool) (size : N) (n : nat) (data : bytes)
    (ret : list (pyobj * pyobj)) : result (list (pyobj * pyobj) * bytes) :=
  match fuel, n with
  | _, O => Ok (ret, data)
  | O, _ => out_of_fuel
  | S fuel', S n' =>
      '(key, rest) <- _unpack fuel' raw size data ;;
      if negb (allowed_map_key key)
      then Raise (ValueError "key type is not allowed for map key")
      else
        '(value, rest) <- _unpack fuel' raw size rest ;;
        _unpack_pairs fuel' raw size n' rest (dict_set ret key value)
  end.

(** [msgpack.unpackb(packed, raw=...)] *)
Definition unpackb (packed : bytes) (raw : bool) : result pyobj :=
  '(ret, rest) <- _unpack (2 * List.length packed + 2) raw (len packed) packed ;;
  match rest with
  | [] => Ok ret
  | _ => Raise (Exn "msgpack.ExtraData" "unpack(b) received extra data.")
  end.

End Msgpack.

(** *** Documents that msgpack restores *)

(** No key of [keys] equals a later one. *)
Fixpoint distinct_keys (keys : list pyobj) : bool :=
  match keys with
  | [] => true
  | k :: keys' => negb (existsb (Msgpack.key_eqb k) keys') && distinct_keys keys'
  end.

(** Every [dict] in [obj] has keys that are [str] or [bytes] objects and
    differ from one another, as the keys of a Python [dict] that msgpack
    unpacks do. *)
Fixpoint keys_ok (obj : pyobj) : bool :=
  match obj with
  | PyList items => forallb keys_ok items
  | PyDict items =>
      forallb Msgpack.allowed_map_key (map fst items)
      && distinct_keys (map fst items)
      && forallb (fun kv => keys_ok (snd kv)) items
  | _ => true
  end.

(** The loops of [Msgpack._pack] over the items of a [list] and of a [dict]. *)
Definition pack_items (nest_limit : Z) : list pyobj -> result bytes :=
  fix each (l : list pyobj) : result bytes :=
    match l with
    | [] => Ok []
    | x :: l' =>
        a <- Msgpack._pack true x (nest_limit - 1)%Z ;;
        b <- each l' ;;
        Ok (a ++ b)%list
    end.

Definition pack_pairs (nest_limit : Z) : list (pyobj * pyobj) -> result bytes :=
  fix each (l : list (pyobj * pyobj)) : result bytes :=
    match l with
    | [] => Ok []
    | (k, v) :: l' =>
        a <- Msgpack._pack true k (nest_limit - 1 - 1)%Z ;;
        b <- Msgpack._pack true v (nest_limit - 1 - 1)%Z ;;
        c <- each l' ;;
        Ok (a ++ b ++ c)%list
    end.

(** [obj] is read back from any of its encodings, whatever follows it. *)
Definition unpacks (obj : pyobj) : Prop :=
  forall (nest_limit : Z) (bs tail : bytes) (fuel : nat) (size : N),
    Msgpack._pack true obj nest_limit = Ok bs ->
    keys_ok obj = true ->
    Msgpack.len bs <= size ->
    (2 * List.length (bs ++ tail) + 1 <= fuel)%nat ->
    Msgpack._unpack fuel false size (bs ++ tail) = Ok (obj, tail).

(** *** Fuel

    The decoders above recurse on fuel.  A result is settled when it does
    not come from running out of it. *)

Definition settled {A : Type} (r : result A) : Prop :=
  match r with
  | Ok _ => True
  | Raise e => e <> Exn "Unmodelled" "fuel"
  end.

(** [r] is settled and what it leaves of [data] is shorter by [k] at least. *)
Definition consumes {A : Type} (k : nat) (data : bytes) (r : result (A * bytes)) : Prop :=
  settled r /\
  forall a rest, r = Ok (a, rest) -> (List.length rest + k <= List.length data)%nat.

(** The instance. *)
Definition codecs : Codecs := {|
  msgpack_packb := Msgpack.packb;
  msgpack_unpackb := Msgpack.unpackb;
  gzip_compress := Gzip.compress;
  gzip_decompress := Gzip.decompress;
  b2a_base64 := Base64.b2a_base64;
  a2b_base64 := Base64.a2b_base64;
  bytes_decode := Utf8.decode
|}.

End Ref.

(** ** Documents and records to run the envelope on *)

Module Sample.

(** The [str] of an ASCII literal. *)
Definition text (s : string) : str := map Byte.to_N (list_byte_of_string s).

(** [{"a": 1}] *)
Definition doc_a1 : pyobj := PyDict [(PyStr (text "a"), PyInt 1)].

(** [{}] *)
Definition doc_empty : pyobj := PyDict [].

(** [{"name": "pecyn", "tags": ["x", None, True], "n": -300, "raw": b"\x00\xff"}] *)
Definition doc_nested : pyobj :=
  PyDict [(PyStr (text "name"), PyStr (text "pecyn"));
          (PyStr (text "tags"), PyList [PyStr (text "x"); PyNone; PyBool true]);
          (PyStr (text "n"), PyInt (-300));
          (PyStr (text "raw"), PyBytes [x00; xff])].

(** A clock reading: 2018-11-01 00:00:00 UTC. *)
Definition clock : Z := 1541030400.

(** The record the reference codecs build for [doc] under [compress]. *)
Definition record_of (doc : pyobj) (compress : bool) : bytes :=
  match Pecyn.packb (codecs := Ref.codecs) clock doc (Some (PyBool compress)) with
  | Ok record => record
  | Raise _ => []
  end.

(** [{"a": 1}] packed with compression by the reference codecs, as bytes. *)
Definition record_a1_gzip : bytes := Eval vm_compute in record_of doc_a1 true.

(** The same record cut short in the middle of the deflate stream. *)
Definition record_a1_truncated : bytes := Eval vm_compute in firstn 19 record_a1_gzip.

End Sample.

(** ** Properties of the envelope, for any codecs *)

Section Properties.

Context {codecs : Codecs}.

Import Pecyn.

(** *** Bits and bytes *)

Lemma land_bit_truth (n : Z) (k : Z) :
  0 <= k -> truth_int (Z.land n (Z.shiftl 1 k)) = Z.testbit n k.
Proof.
  intros Hk. unfold truth_int. rewrite Z.shiftl_1_l.
  destruct (Z.testbit n k) eqn:Hbit.
  - destruct (Z.eqb_spec (Z.land n (2 ^ k)) 0) as [E|]; [|reflexivity].
    assert (Hb : Z.testbit (Z.land n (2 ^ k)) k = true).
    { rewrite Z.land_spec, Hbit, Z.pow2_bits_true; auto. }
    rewrite E, Z.bits_0 in Hb. discriminate.
  - replace (Z.land n (2 ^ k)) with 0; [reflexivity|].
    symmetry. apply Z.bits_inj'. intros m Hm.
    rewrite Z.land_spec, Z.bits_0, Z.pow2_bits_eqb by assumption.
    destruct (Z.eqb_spec k m) as [->|]; [rewrite Hbit|]; auto using andb_false_r.
Qed.

Lemma gzip_bit (n : Z) : truth_int (Z.land n _FLAG_GZIP) = Z.testbit n 4.
Proof. apply land_bit_truth. lia. Qed.

Lemma msgpack_bit (n : Z) : truth_int (Z.land n _FLAG_MSGPACK) = Z.testbit n 0.
Proof. apply land_bit_truth. lia. Qed.

Lemma int_of_byte_zero (b : byte) : (int_of_byte b =? 0) = true <-> b = x00.
Proof.
  split.
  - destruct b; vm_compute; intros H; try reflexivity; discriminate H.
  - intros ->. reflexivity.
Qed.

(** *** The two functions, unfolded once *)

(** [packb] on a [bool] setting: the header is one of two constants. *)
Lemma packb_bool (now : Z) (doc : pyobj) (compress : bool) :
  packb now doc (Some (PyBool compress)) =
  (blob <- msgpack_packb doc true ;;
   payload <- (if compress
               then gzip_compress blob _GZIP_COMPRESSION_LEVEL now
               else Ok blob) ;;
   Ok (x00 :: (if compress then x11 else x01) :: payload)).
Proof.
  unfold packb. cbn [keyword truth].
  destruct (msgpack_packb doc true) as [blob|e]; [cbn [bind]|reflexivity].
  destruct compress; cbn [bind].
  - destruct (gzip_compress blob _GZIP_COMPRESSION_LEVEL now); reflexivity.
  - reflexivity.
Qed.

(** [unpackb] on a record that has a header. *)
Lemma unpackb_header (version flags : byte) (payload : bytes) :
  unpackb (version :: flags :: payload) =
  if negb (int_of_byte version =? _PACK_VERSION)
  then Raise (Exn "ValueError"
                ("Unsupported pack version: " ++ format_int (int_of_byte version)
                 ++ " != " ++ format_int _PACK_VERSION))
  else
    blob <- (if Z.testbit (int_of_byte flags) 4
             then gzip_decompress payload
             else Ok payload) ;;
    if negb (Z.testbit (int_of_byte flags) 0)
    then Raise (Exn "ValueError"
                  ("Unsupported document format: " ++ format_int (int_of_byte flags)))
    else msgpack_unpackb blob false.
Proof.
  unfold unpackb.
  replace (Z.of_nat (List.length (version :: flags :: payload)) <? _HEADER_BLOCK_SIZE)
    with false.
  - unfold slice_to, slice_from, _HEADER_BLOCK_SIZE.
    change (Z.to_nat 2) with 2%nat.
    cbn [firstn skipn struct_unpack_BB bind].
    rewrite gzip_bit, msgpack_bit. reflexivity.
  - symmetry. apply Z.ltb_ge. cbn [List.length]. unfold _HEADER_BLOCK_SIZE. lia.
Qed.

(** [unpackb] on a version 0 record. *)
Lemma unpackb_version_0 (flags : byte) (payload : bytes) :
  unpackb (x00 :: flags :: payload) =
  (blob <- (if Z.testbit (int_of_byte flags) 4
            then gzip_decompress payload
            else Ok payload) ;;
   if negb (Z.testbit (int_of_byte flags) 0)
   then Raise (Exn "ValueError"
                 ("Unsupported document format: " ++ format_int (int_of_byte flags)))
   else msgpack_unpackb blob false).
Proof. rewrite unpackb_header. reflexivity. Qed.

(** *** Encoding *)

(** C3. The record [packb] returns starts with the version byte [0x00] and
    the flags byte, [0x11] when [compress] is true and [0x01] when it is
    false; what follows is the msgpack encoding of the document, passed
    through gzip when [compress] is true and as it is otherwise. *)
Theorem packb_header_and_payload (now : Z) (D : pyobj) (compress : bool)
    (record : bytes) :
  packb now D (Some (PyBool compress)) = Ok record ->
  nth_error record 0 = Some x00 /\
  nth_error record 1 = Some (if compress then x11 else x01) /\
  exists blob : bytes,
    msgpack_packb D true = Ok blob /\
    (if compress
     then gzip_compress blob _GZIP_COMPRESSION_LEVEL now
     else Ok blob) = Ok (slice_from _HEADER_BLOCK_SIZE record).
Proof.
  rewrite packb_bool.
  destruct (msgpack_packb D true) as [blob|e]; cbn [bind]; [|discriminate].
  destruct (if compress then gzip_compress blob _GZIP_COMPRESSION_LEVEL now else Ok blob)
    as [payload|e] eqn:Hpayload; cbn [bind]; [|discriminate].
  intros [= <-]. repeat split. exists blob. split; [reflexivity|exact Hpayload].
Qed.

(** *** Round trips *)

Lemma roundtrip_bytes (now : Z) (D : pyobj) (compress : bool) :
  msgpack_restores D ->
  (forall blob, compress = true -> msgpack_packb D true = Ok blob ->
                gzip_restores now blob) ->
  exists record, packb now D (Some (PyBool compress)) = Ok record /\
                 unpackb record = Ok D.
Proof.
  unfold msgpack_restores, gzip_restores. intros Hmsgpack Hgzip.
  rewrite packb_bool.
  destruct (msgpack_packb D true) as [blob|e]; cbn [bind] in *; [|discriminate].
  destruct compress; cbn [bind].
  - specialize (Hgzip blob eq_refl eq_refl).
    destruct (gzip_compress blob _GZIP_COMPRESSION_LEVEL now) as [data|e];
      cbn [bind] in *; [|discriminate].
    eexists. split; [reflexivity|].
    rewrite unpackb_version_0. change (Z.testbit (int_of_byte x11) 4) with true.
    rewrite Hgzip. exact Hmsgpack.
  - eexists. split; [reflexivity|].
    rewrite unpackb_version_0. exact Hmsgpack.
Qed.

(** C1. Decoding the record that [packb] builds for a document gives the
    document back, with and without compression, for every document msgpack
    represents (and, under compression, that gzip restores). *)
Theorem unpackb_packb_roundtrip (now : Z) (D : pyobj) (compress : bool) :
  msgpack_restores D ->
  (forall blob, compress = true -> msgpack_packb D true = Ok blob ->
                gzip_restores now blob) ->
  (record <- packb now D (Some (PyBool compress)) ;; unpackb record) = Ok D.
Proof.
  intros Hmsgpack Hgzip.
  destruct (roundtrip_bytes now D compress Hmsgpack Hgzip) as (record & -> & Hback).
  exact Hback.
Qed.

Lemma roundtrip_text (now : Z) (D : pyobj) (compress : bool) :
  msgpack_restores D ->
  (forall blob, compress = true -> msgpack_packb D true = Ok blob ->
                gzip_restores now blob) ->
  (forall record, packb now D (Some (PyBool compress)) = Ok record ->
                  base64_restores record) ->
  exists text, pack now D (Some (PyBool compress)) = Ok text /\
               unpack text = Ok D.
Proof.
  intros Hmsgpack Hgzip Hbase64.
  destruct (roundtrip_bytes now D compress Hmsgpack Hgzip) as (record & Hpack & Hback).
  specialize (Hbase64 record Hpack). unfold base64_restores in Hbase64.
  unfold pack, unpack. cbn [keyword]. rewrite Hpack. cbn [bind].
  destruct (bytes_decode (b2a_base64 record false)) as [text|e];
    cbn [bind] in *; [|discriminate].
  exists text. split; [reflexivity|]. rewrite Hbase64. exact Hback.
Qed.

(** The envelope adds nothing to and takes nothing from what the codecs do:
    packing and unpacking is packing with msgpack, passing through gzip and
    back when compressing, and unpacking with msgpack. *)
Lemma envelope_transparent (now : Z) (D : pyobj) (compress : bool) :
  (record <- packb now D (Some (PyBool compress)) ;; unpackb record) =
  (blob <- msgpack_packb D true ;;
   blob <- (if compress
            then data <- gzip_compress blob _GZIP_COMPRESSION_LEVEL now ;;
                 gzip_decompress data
            else Ok blob) ;;
   msgpack_unpackb blob false).
Proof.
  rewrite packb_bool.
  destruct (msgpack_packb D true) as [blob|e]; cbn [bind]; [|reflexivity].
  destruct compress; cbn [bind].
  - destruct (gzip_compress blob _GZIP_COMPRESSION_LEVEL now) as [data|e];
      cbn [bind]; [|reflexivity].
    rewrite unpackb_version_0. reflexivity.
  - rewrite unpackb_version_0. reflexivity.
Qed.

(** C2. The round trip through text: [unpack] gives back the document that
    [pack] was called with, with and without compression, when Base64 text
    restores the record in between. *)
Theorem unpack_pack_roundtrip (now : Z) (D : pyobj) (compress : bool) :
  msgpack_restores D ->
  (forall blob, compress = true -> msgpack_packb D true = Ok blob ->
                gzip_restores now blob) ->
  (forall record, packb now D (Some (PyBool compress)) = Ok record ->
                  base64_restores record) ->
  (text <- pack now D (Some (PyBool compress)) ;; unpack text) = Ok D.
Proof.
  intros Hmsgpack Hgzip Hbase64.
  destruct (roundtrip_text now D compress Hmsgpack Hgzip Hbase64) as (text & -> & Hback).
  exact Hback.
Qed.

(** *** Decoding *)

(** C7. A record shorter than the two byte header is refused with the
    [ValueError] of the header check; nothing of it is read. *)
Theorem unpackb_short_record (record : bytes) :
  (List.length record < 2)%nat ->
  unpackb record = Raise (Exn "ValueError" "Invalid header block").
Proof.
  intros Hshort. unfold unpackb.
  destruct (Z.ltb_spec (Z.of_nat (List.length record)) _HEADER_BLOCK_SIZE) as [_|Hlong].
  - reflexivity.
  - unfold _HEADER_BLOCK_SIZE in Hlong. lia.
Qed.

(** C8. A record with a header whose version byte is not 0 is refused with
    the version [ValueError], whatever its flags and payload are. *)
Theorem unpackb_version_mismatch (version flags : byte) (payload : bytes) :
  version <> x00 ->
  unpackb (version :: flags :: payload) =
  Raise (Exn "ValueError"
           ("Unsupported pack version: " ++ format_int (int_of_byte version)
            ++ " != 0")).
Proof.
  intros Hversion. rewrite unpackb_header.
  destruct (int_of_byte version =? _PACK_VERSION) eqn:E.
  - apply int_of_byte_zero in E. contradiction.
  - reflexivity.
Qed.

(** C9, as amended. On a version 0 record with the GZIP bit set, an
    exception that [gzip.decompress] raises on the payload is what [unpackb]
    raises: no document is returned.  The payload has to be one that
    [gzip.decompress] refuses, which not every truncated payload is. *)
Theorem unpackb_decompression_error (flags : byte) (payload : bytes) (e : exn) :
  Z.testbit (int_of_byte flags) 4 = true ->
  gzip_decompress payload = Raise e ->
  unpackb (x00 :: flags :: payload) = Raise e.
Proof.
  intros Hgzip Herror. rewrite unpackb_version_0, Hgzip, Herror. reflexivity.
Qed.

(** C4, as amended. On a version 0 record whose MSGPACK bit is unset,
    [unpackb] raises: the format [ValueError] when the GZIP bit is unset or
    the payload decompresses, and the exception of [gzip.decompress] when
    the GZIP bit is set and the payload does not decompress. *)
Theorem unpackb_without_msgpack_bit (flags : byte) (payload : bytes) :
  Z.testbit (int_of_byte flags) 0 = false ->
  (Z.testbit (int_of_byte flags) 4 = false ->
   unpackb (x00 :: flags :: payload) =
   Raise (Exn "ValueError"
            ("Unsupported document format: " ++ format_int (int_of_byte flags))))
  /\
  (forall blob : bytes,
     Z.testbit (int_of_byte flags) 4 = true ->
     gzip_decompress payload = Ok blob ->
     unpackb (x00 :: flags :: payload) =
     Raise (Exn "ValueError"
              ("Unsupported document format: " ++ format_int (int_of_byte flags))))
  /\
  (forall e : exn,
     Z.testbit (int_of_byte flags) 4 = true ->
     gzip_decompress payload = Raise e ->
     unpackb (x00 :: flags :: payload) = Raise e).
Proof.
  intros Hmsgpack. rewrite unpackb_version_0, Hmsgpack.
  repeat split.
  - intros ->. reflexivity.
  - intros blob -> ->. reflexivity.
  - intros e -> ->. reflexivity.
Qed.

(** C6. On a version 0 record with the MSGPACK bit set and the GZIP bit
    unset, [unpackb] returns what msgpack decodes from the payload, whatever
    the other six flag bits are. *)
Theorem unpackb_reserved_bits_accepted (flags : byte) (payload : bytes) (D : pyobj) :
  Z.testbit (int_of_byte flags) 0 = true ->
  Z.testbit (int_of_byte flags) 4 = false ->
  msgpack_unpackb payload false = Ok D ->
  unpackb (x00 :: flags :: payload) = Ok D.
Proof.
  intros Hmsgpack Hgzip Hpayload.
  rewrite unpackb_version_0, Hmsgpack, Hgzip. exact Hpayload.
Qed.

(** C5, as amended. Reserved flag bits do not make [unpackb] refuse a
    version 0 record: with the MSGPACK bit set, two flags bytes that agree
    on the MSGPACK and GZIP bits give the same outcome on the same payload,
    so a record decodes as it does with its reserved bits cleared. *)
Theorem unpackb_reserved_bits_ignored (flags flags' : byte) (payload : bytes) :
  Z.testbit (int_of_byte flags) 0 = true ->
  Z.testbit (int_of_byte flags') 0 = Z.testbit (int_of_byte flags) 0 ->
  Z.testbit (int_of_byte flags') 4 = Z.testbit (int_of_byte flags) 4 ->
  unpackb (x00 :: flags :: payload) = unpackb (x00 :: flags' :: payload).
Proof.
  intros Hmsgpack Hbit0 Hbit4.
  rewrite !unpackb_version_0, Hbit0, Hbit4, Hmsgpack. reflexivity.
Qed.

(** *** The [compress] argument *)

(** [packb] looks at [compress] through its truth value only. *)
Lemma packb_truth (now : Z) (doc compress : pyobj) :
  packb now doc (Some compress) = packb now doc (Some (PyBool (truth compress))).
Proof. reflexivity. Qed.

Lemma pack_truth (now : Z) (doc compress : pyobj) :
  pack now doc (Some compress) = pack now doc (Some (PyBool (truth compress))).
Proof. reflexivity. Qed.


End Properties.

(** ** Further properties of the envelope, for any codecs *)

Section Further.

Context {codecs : Codecs}.

Import Pecyn.

(** [packb] looks at its keyword argument through the truth value of what
    it stands for. *)
Lemma packb_keyword (now : Z) (doc : pyobj) (compress : option pyobj) :
  packb now doc compress
  = packb now doc (Some (PyBool (truth (keyword PyNone compress)))).
Proof. destruct compress; reflexivity. Qed.

Lemma pack_packb (now : Z) (doc : pyobj) (compress : option pyobj) :
  pack now doc compress
  = (record <- packb now doc compress ;; bytes_decode (b2a_base64 record false)).
Proof. destruct compress; reflexivity. Qed.

(** *** Exceptions of [packb] *)

(** X1. [packb] raises exactly what msgpack raises on the document or, when
    [compress] is true, what gzip raises on the msgpack blob: building the
    header never fails. *)
Theorem packb_raises_iff (now : Z) (D : pyobj) (compress : option pyobj) (e : exn) :
  packb now D compress = Raise e <->
  msgpack_packb D true = Raise e \/
  (exists blob : bytes,
     msgpack_packb D true = Ok blob /\
     truth (keyword PyNone compress) = true /\
     gzip_compress blob _GZIP_COMPRESSION_LEVEL now = Raise e).
Proof.
  rewrite packb_keyword, packb_bool.
  destruct (msgpack_packb D true) as [blob|e0]; cbn [bind].
  - destruct (truth (keyword PyNone compress)).
    + destruct (gzip_compress blob _GZIP_COMPRESSION_LEVEL now) as [data|e1] eqn:Hgzip;
        cbn [bind]; split.
      * discriminate.
      * intros [H|(blob' & Hblob & _ & H)]; [discriminate H|].
        injection Hblob as <-. rewrite Hgzip in H. discriminate H.
      * intros H. right. exists blob.
        split; [reflexivity|split; [reflexivity|rewrite Hgzip; exact H]].
      * intros [H|(blob' & Hblob & _ & H)]; [discriminate H|].
        injection Hblob as <-. rewrite Hgzip in H. exact H.
    + cbn [bind]. split; [discriminate|].
      intros [H|(blob' & _ & H & _)]; discriminate H.
  - split.
    + intros H. left. exact H.
    + intros [H|(blob & H & _)]; [exact H|discriminate H].
Qed.

(** *** [unpackb] after [packb] *)

(** X2. Unpacking what [packb] returns gives what the codecs give, whatever
    the [compress] argument is: msgpack packs, gzip compresses and
    decompresses when [compress] is true, msgpack unpacks.  None of the
    header checks of [unpackb] fails on a record of [packb]. *)
Theorem unpackb_packb_transparent (now : Z) (D : pyobj) (compress : option pyobj) :
  (record <- packb now D compress ;; unpackb record) =
  (blob <- msgpack_packb D true ;;
   blob <- (if truth (keyword PyNone compress)
            then data <- gzip_compress blob _GZIP_COMPRESSION_LEVEL now ;;
                 gzip_decompress data
            else Ok blob) ;;
   msgpack_unpackb blob false).
Proof. rewrite packb_keyword. apply envelope_transparent. Qed.

(** X3. The text layer changes nothing: when Base64 text restores the
    record, [unpack] after [pack] gives the document or the exception that
    [unpackb] after [packb] gives. *)
Theorem unpack_pack_through_bytes (now : Z) (D : pyobj) (compress : option pyobj) :
  (forall record, packb now D compress = Ok record -> base64_restores record) ->
  (text <- pack now D compress ;; unpack text)
  = (record <- packb now D compress ;; unpackb record).
Proof.
  intros Hbase64. rewrite pack_packb.
  destruct (packb now D compress) as [record|e]; cbn [bind]; [|reflexivity].
  specialize (Hbase64 record eq_refl). unfold base64_restores in Hbase64.
  destruct (bytes_decode (b2a_base64 record false)) as [text|e];
    cbn [bind] in *; [|discriminate].
  unfold unpack. rewrite Hbase64. reflexivity.
Qed.

(** *** What [unpackb] returns and raises *)

(** X4. [unpackb] returns a document exactly from a record that has the
    version byte 0 and the MSGPACK bit set and whose payload, decompressed
    when the GZIP bit is set, is what msgpack unpacks to the document.  From
    no other record does it return anything. *)
Theorem unpackb_returns_iff (record : bytes) (D : pyobj) :
  unpackb record = Ok D <->
  exists (flags : byte) (payload blob : bytes),
    record = x00 :: flags :: payload /\
    Z.testbit (int_of_byte flags) 0 = true /\
    (if Z.testbit (int_of_byte flags) 4 then gzip_decompress payload else Ok payload)
    = Ok blob /\
    msgpack_unpackb blob false = Ok D.
Proof.
  split.
  - destruct record as [|version [|flags payload]];
      [intros H; cbn in H; discriminate H|intros H; cbn in H; discriminate H|].
    rewrite unpackb_header.
    destruct (int_of_byte version =? _PACK_VERSION) eqn:Hversion;
      cbn [negb]; [|discriminate].
    apply int_of_byte_zero in Hversion. subst version.
    match goal with
    | |- bind ?r _ = _ -> _ => destruct r as [blob|e] eqn:Hblob
    end; cbn [bind]; [|discriminate].
    destruct (Z.testbit (int_of_byte flags) 0) eqn:Hbit; cbn [negb]; [|discriminate].
    intros HD. exists flags, payload, blob.
    split; [reflexivity|]. split; [exact Hbit|]. split; [exact Hblob|exact HD].
  - intros (flags & payload & blob & -> & Hbit & Hblob & HD).
    rewrite unpackb_version_0, Hblob, Hbit. exact HD.
Qed.

(** X5. On a version 0 record with the MSGPACK bit set, an exception that
    msgpack raises on the payload (decompressed when the GZIP bit is set) is
    what [unpackb] raises. *)
Theorem unpackb_payload_decode_error (flags : byte) (payload blob : bytes) (e : exn) :
  Z.testbit (int_of_byte flags) 0 = true ->
  (if Z.testbit (int_of_byte flags) 4 then gzip_decompress payload else Ok payload)
  = Ok blob ->
  msgpack_unpackb blob false = Raise e ->
  unpackb (x00 :: flags :: payload) = Raise e.
Proof.
  intros Hbit Hblob He. rewrite unpackb_version_0, Hblob, Hbit. exact He.
Qed.

(** X6. Every exception of [unpackb] is one of five: its [ValueError] for a
    short record, for a version other than 0 or for an unset MSGPACK bit,
    the exception of [gzip.decompress] on the payload of a record with the
    GZIP bit, or the exception of [msgpack.unpackb] on the payload.  Reading
    the header never fails. *)
Theorem unpackb_exceptions (record : bytes) (e : exn) :
  unpackb record = Raise e ->
  ((List.length record < 2)%nat /\ e = Exn "ValueError" "Invalid header block")
  \/ (exists (version flags : byte) (payload : bytes),
        record = version :: flags :: payload /\ version <> x00 /\
        e = Exn "ValueError"
              ("Unsupported pack version: " ++ format_int (int_of_byte version)
               ++ " != 0"))
  \/ (exists (flags : byte) (payload : bytes),
        record = x00 :: flags :: payload /\
        Z.testbit (int_of_byte flags) 4 = true /\
        gzip_decompress payload = Raise e)
  \/ (exists (flags : byte) (payload : bytes),
        record = x00 :: flags :: payload /\
        Z.testbit (int_of_byte flags) 0 = false /\
        e = Exn "ValueError"
              ("Unsupported document format: " ++ format_int (int_of_byte flags)))
  \/ (exists (flags : byte) (payload blob : bytes),
        record = x00 :: flags :: payload /\
        Z.testbit (int_of_byte flags) 0 = true /\
        (if Z.testbit (int_of_byte flags) 4 then gzip_decompress payload
         else Ok payload) = Ok blob /\
        msgpack_unpackb blob false = Raise e).
Proof.
  destruct record as [|version [|flags payload]].
  - intros H. left. split; [cbn; lia|]. cbn in H. congruence.
  - intros H. left. split; [cbn; lia|]. cbn in H. congruence.
  - rewrite unpackb_header.
    destruct (int_of_byte version =? _PACK_VERSION) eqn:Hversion; cbn [negb].
    + apply int_of_byte_zero in Hversion. subst version.
      destruct (Z.testbit (int_of_byte flags) 4) eqn:Hgzip.
      * destruct (gzip_decompress payload) as [blob|e0] eqn:Hblob; cbn [bind].
        -- destruct (Z.testbit (int_of_byte flags) 0) eqn:Hbit; cbn [negb]; intros H.
           ++ do 4 right. exists flags, payload, blob. rewrite Hgzip. auto.
           ++ do 3 right. left. exists flags, payload. split; [reflexivity|].
              split; [exact Hbit|congruence].
        -- intros H. do 2 right. left. exists flags, payload.
           split; [reflexivity|]. split; [exact Hgzip|congruence].
      * cbn [bind].
        destruct (Z.testbit (int_of_byte flags) 0) eqn:Hbit; cbn [negb]; intros H.
        -- do 4 right. exists flags, payload, payload. rewrite Hgzip. auto.
        -- do 3 right. left. exists flags, payload. split; [reflexivity|].
           split; [exact Hbit|congruence].
    + intros H. right. left. exists version, flags, payload.
      split; [reflexivity|]. split.
      * intros ->. discriminate Hversion.
      * injection H as <-. reflexivity.
Qed.

(** *** True values of [compress] *)

(** X7. Any true value of [compress] selects compression: [packb] and
    [pack] return what they return for [compress=True]. *)
Theorem packb_truthy_compress (now : Z) (D : pyobj) (compress : pyobj) :
  truth compress = true ->
  packb now D (Some compress) = packb now D (Some (PyBool true)) /\
  pack now D (Some compress) = pack now D (Some (PyBool true)).
Proof.
  intros Htruthy.
  rewrite (packb_truth now D compress), (pack_truth now D compress), Htruthy.
  split; reflexivity.
Qed.

(** *** Short text *)

(** X9. Text that Base64 decodes to fewer than two bytes, the empty string
    among it, is refused by [unpack] with the [ValueError] of the header
    check. *)
Theorem unpack_short_text (text : str) (data : bytes) :
  a2b_base64 text = Ok data ->
  (List.length data < 2)%nat ->
  unpack text = Raise (Exn "ValueError" "Invalid header block").
Proof.
  intros Hdata Hshort. unfold unpack. rewrite Hdata. cbn [bind].
  destruct data as [|b [|b' data]]; [reflexivity|reflexivity|].
  cbn [List.length] in Hshort. lia.
Qed.

End Further.

(** ** The reference codecs: known answers *)

Section KnownAnswers.

Import Ref Sample.

(** The CRC-32 check value. *)
Example crc32_check : Crc32.crc32 (list_byte_of_string "123456789") = 0xCBF43926%N.
Proof. vm_compute. reflexivity. Qed.

Example base64_foob :
  Base64.b2a_base64 (list_byte_of_string "foob") false = list_byte_of_string "Zm9vYg=="
  /\ Base64.a2b_base64 (text "Zm9vYg==") = Ok (list_byte_of_string "foob").
Proof. split; vm_compute; reflexivity. Qed.

(** Characters outside the alphabet are skipped, a lone data character is
    an error. *)
Example base64_lenient :
  Base64.a2b_base64 (text "Zm9 vYg==") = Ok (list_byte_of_string "foob")
  /\ Base64.a2b_base64 (text "Zm9vYg=")
     = Raise (Base64.binascii_Error "Incorrect padding").
Proof. split; vm_compute; reflexivity. Qed.

(** U+20AC, U+0041, U+1F600. *)
Example utf8_euro :
  Utf8.encode [0x20AC; 0x41; 0x1F600]%N
  = Ok [xe2; x82; xac; x41; xf0; x9f; x98; x80]
  /\ Utf8.decode [xe2; x82; xac; x41; xf0; x9f; x98; x80]
     = Ok [0x20AC; 0x41; 0x1F600]%N
  /\ Utf8.decode [xc0; x80] = Raise Utf8.decode_error.
Proof. repeat split; vm_compute; reflexivity. Qed.

Example msgpack_a1 :
  Msgpack.packb doc_a1 true = Ok [x81; xa1; x61; x01]
  /\ Msgpack.unpackb [x81; xa1; x61; x01] false = Ok doc_a1.
Proof. split; vm_compute; reflexivity. Qed.

Example msgpack_scalars :
  Msgpack.unpackb [xc0] false = Ok PyNone
  /\ Msgpack.unpackb [x80] false = Ok doc_empty
  /\ Msgpack.packb (PyInt (-300)) true = Ok [xd1; xfe; xd4]
  /\ Msgpack.unpackb [] false = Raise (Msgpack.ValueError "Unpack failed: incomplete input").
Proof. repeat split; vm_compute; reflexivity. Qed.

(** A gzip member as the reference instance writes it: header with the
    clock, one stored block, CRC-32 and length.  The library writes a
    Huffman-coded block in its place. *)
Example gzip_hello :
  Gzip.compress (list_byte_of_string "hello") 3 clock
  = Ok ([x1f; x8b; x08; x00; x00; x42; xda; x5b; x00; xff;
         x01; x05; x00; xfa; xff] ++ list_byte_of_string "hello"
        ++ [x86; xa6; x10; x36; x05; x00; x00; x00])
  /\ (data <- Gzip.compress (list_byte_of_string "hello") 3 clock ;;
      Gzip.decompress data) = Ok (list_byte_of_string "hello").
Proof. split; vm_compute; reflexivity. Qed.

(** No input is no member; a wrong magic number is an error. *)
Example gzip_not_a_member :
  Gzip.decompress [] = Ok []
  /\ Gzip.decompress [x01] = Raise (Gzip.BadGzipFile "Not a gzipped file").
Proof. split; vm_compute; reflexivity. Qed.

End KnownAnswers.

(** ** The reference codecs: fuel *)

Section ReferenceFuel.

Import Ref.

Local Open Scope nat_scope.


Lemma settled_bind {A B : Type} (r : result A) (k : A -> result B) :
  settled r -> (forall a, r = Ok a -> settled (k a)) -> settled (bind r k).
Proof.
  intros Hr Hk. destruct r as [a|e]; cbn [bind]; [apply Hk; reflexivity|exact Hr].
Qed.

Lemma split_at_length (n : N) (l a b : bytes) :
  Gzip.split_at n l = (a, b) -> (List.length a + List.length b = List.length l)%nat.
Proof.
  revert n a b. induction l as [|x l IH]; intros n a b; cbn [Gzip.split_at].
  - intros [= <- <-]. reflexivity.
  - destruct (n =? 0)%N.
    + intros [= <- <-]. reflexivity.
    + destruct (Gzip.split_at (n - 1) l) as [a' b'] eqn:E.
      intros [= <- <-]. cbn [List.length]. specialize (IH _ _ _ E). lia.
Qed.

Lemma split_at_short (n : N) (l a b : bytes) :
  Gzip.split_at n l = (a, b) -> (N.of_nat (List.length a) <= n)%N.
Proof.
  revert n a b. induction l as [|x l IH]; intros n a b; cbn [Gzip.split_at].
  - intros [= <- <-]. cbn. lia.
  - destruct (N.eqb_spec n 0).
    + intros [= <- <-]. cbn. lia.
    + destruct (Gzip.split_at (n - 1) l) as [a' b'] eqn:E.
      intros [= <- <-]. cbn [List.length]. specialize (IH _ _ _ E). lia.
Qed.

Lemma consumes_read (n : N) (data : bytes) :
  consumes (N.to_nat n) data (Msgpack._read n data).
Proof.
  unfold consumes, Msgpack._read.
  destruct (Gzip.split_at n data) as [a b] eqn:E.
  pose proof (split_at_length _ _ _ _ E) as Hlen.
  unfold Msgpack.len.
  destruct (N.ltb_spec (N.of_nat (List.length a)) n).
  - split; [discriminate|]. intros ? ? [=].
  - split; [exact I|]. intros ? ? [= <- <-]. lia.
Qed.

Lemma consumes_weaken {A : Type} (k k' : nat) (data : bytes) (r : result (A * bytes)) :
  (k' <= k)%nat -> consumes k data r -> consumes k' data r.
Proof.
  intros Hle [Hs Hc]. split; [exact Hs|]. intros a rest E. specialize (Hc a rest E). lia.
Qed.

Lemma consumes_read_uint (n : N) (data : bytes) :
  consumes 0 data (Msgpack.read_uint n data).
Proof.
  unfold Msgpack.read_uint.
  destruct (consumes_read n data) as [Hs Hc].
  destruct (Msgpack._read n data) as [[a b]|e]; cbn [bind].
  - split; [exact I|]. intros ? ? [= <- <-]. specialize (Hc _ _ eq_refl). lia.
  - split; [exact Hs|]. intros ? ? [=].
Qed.

Lemma consumes_read_sint (n : N) (data : bytes) :
  consumes 0 data (Msgpack.read_sint n data).
Proof.
  unfold Msgpack.read_sint.
  destruct (consumes_read n data) as [Hs Hc].
  destruct (Msgpack._read n data) as [[a b]|e]; cbn [bind].
  - split; [exact I|]. intros ? ? [= <- <-]. specialize (Hc _ _ eq_refl). lia.
  - split; [exact Hs|]. intros ? ? [=].
Qed.

Lemma consumes_checked_len (what : string) (limit : N) (h : N -> Msgpack.header)
    (data : bytes) (r : result (N * bytes)) :
  consumes 0 data r -> consumes 0 data (Msgpack.checked_len what limit h r).
Proof.
  intros [Hs Hc]. unfold Msgpack.checked_len.
  destruct r as [[n rest]|e]; cbn [bind].
  - destruct (limit <? n)%N.
    + split; [discriminate|]. intros ? ? [=].
    + split; [exact I|]. intros ? ? [= <- <-]. exact (Hc _ _ eq_refl).
  - split; [exact Hs|]. intros ? ? [=].
Qed.

Lemma consumes_as_int {A : Type} (to_Z : A -> Z) (data : bytes) (r : result (A * bytes)) :
  consumes 0 data r -> consumes 0 data (Msgpack.as_int to_Z r).
Proof.
  intros [Hs Hc]. unfold Msgpack.as_int.
  destruct r as [[n rest]|e]; cbn [bind].
  - split; [exact I|]. intros ? ? [= <- <-]. exact (Hc _ _ eq_refl).
  - split; [exact Hs|]. intros ? ? [=].
Qed.

Lemma consumes_ok {A : Type} (a : A) (data : bytes) : consumes 0 data (Ok (a, data)).
Proof. split; [exact I|]. intros ? ? [= <- <-]. lia. Qed.

Lemma consumes_raise {A : Type} (k : nat) (e : exn) (data : bytes) :
  e <> Exn "Unmodelled" "fuel" -> consumes (A := A) k data (Raise e).
Proof.
  intros He. split; [exact He|]. intros ? ? [=].
Qed.

Lemma consumes_tail {A : Type} (b : byte) (data : bytes) (r : result (A * bytes)) :
  consumes 0 data r -> consumes 1 (b :: data) r.
Proof.
  intros [Hs Hc]. split; [exact Hs|]. intros a rest E.
  specialize (Hc a rest E). cbn [List.length]. lia.
Qed.

Lemma consumes_read_header (size : N) (data : bytes) :
  consumes 1 data (Msgpack._read_header size data).
Proof.
  unfold Msgpack._read_header.
  destruct data as [|b0 rest].
  - apply consumes_raise. discriminate.
  - cbv zeta. apply consumes_tail.
    repeat match goal with
           | |- context [if ?c then _ else _] => destruct c
           end;
      first [ apply consumes_ok
            | apply consumes_checked_len;
              first [apply consumes_ok | apply consumes_read_uint]
            | apply consumes_as_int;
              first [apply consumes_read_uint | apply consumes_read_sint]
            | apply consumes_raise; discriminate ].
Qed.

Lemma settled_utf8_decode (data : bytes) : settled (Utf8.decode data).
Proof.
  remember (List.length data) as n eqn:Hn.
  assert (Hlen : (List.length data <= n)%nat) by lia. clear Hn.
  revert data Hlen. induction n as [|n IH]; intros data Hlen.
  - destruct data; [exact I|cbn [List.length] in Hlen; lia].
  - destruct data as [|b0 r0]; [exact I|].
    cbn [Utf8.decode]. cbv zeta.
    repeat match goal with
           | |- settled (if ?c then _ else _) => destruct c
           | |- settled (match ?r with [] => _ | _ :: _ => _ end) => destruct r
           | |- settled (Raise _) => unfold settled, Utf8.decode_error; discriminate
           | |- settled (bind (Utf8.decode ?r) _) =>
               apply settled_bind;
               [apply IH; cbn [List.length] in *; lia|intros; exact I]
           end.
Qed.

Lemma consumes_bind {A B : Type} (k : nat) (data : bytes) (r : result (A * bytes))
    (f : A * bytes -> result (B * bytes)) :
  consumes k data r ->
  (forall a rest, (List.length rest + k <= List.length data)%nat ->
                  consumes 0 rest (f (a, rest))) ->
  consumes k data (bind r f).
Proof.
  intros [Hs Hc] Hf. destruct r as [[a rest]|e]; cbn [bind].
  - specialize (Hc a rest eq_refl). destruct (Hf a rest Hc) as [Hs' Hc'].
    split; [exact Hs'|]. intros b rest' E. specialize (Hc' b rest' E). lia.
  - split; [exact Hs|]. intros ? ? [=].
Qed.

Lemma unpack_fuel (raw : bool) (size : N) (fuel : nat) :
  (forall data, (2 * List.length data + 1 <= fuel)%nat ->
                consumes 1 data (Msgpack._unpack fuel raw size data)) /\
  (forall n data, (2 * List.length data + 2 <= fuel)%nat ->
                  consumes 0 data (Msgpack._unpack_items fuel raw size n data)) /\
  (forall n data ret, (2 * List.length data + 2 <= fuel)%nat ->
                      consumes 0 data (Msgpack._unpack_pairs fuel raw size n data ret)).
Proof.
  induction fuel as [|fuel (IHobj & IHitems & IHpairs)].
  - repeat split; intros; lia.
  - split; [|split].
    + intros data Hfuel. cbn [Msgpack._unpack].
      apply consumes_bind; [apply consumes_read_header|].
      intros h rest Hrest. destruct h as [obj|n|n|n|n].
      * apply consumes_ok.
      * apply consumes_bind;
          [apply (consumes_weaken (N.to_nat n)); [lia|apply consumes_read]|].
        intros obj rest' _. destruct raw; [apply consumes_ok|].
        pose proof (settled_utf8_decode obj) as Hs.
        destruct (Utf8.decode obj) as [s|e]; cbn [bind].
        -- apply consumes_ok.
        -- split; [exact Hs|]. intros ? ? [=].
      * apply consumes_bind;
          [apply (consumes_weaken (N.to_nat n)); [lia|apply consumes_read]|].
        intros obj rest' _. apply consumes_ok.
      * apply consumes_bind; [apply IHitems; lia|].
        intros ret rest' _. apply consumes_ok.
      * apply consumes_bind; [apply IHpairs; lia|].
        intros ret rest' _. apply consumes_ok.
    + intros n data Hfuel. cbn [Msgpack._unpack_items].
      destruct n as [|n]; [apply consumes_ok|].
      apply (consumes_weaken 1); [lia|].
      apply consumes_bind; [apply IHobj; lia|].
      intros x rest Hrest.
      apply consumes_bind; [apply IHitems; lia|].
      intros xs rest' _. apply consumes_ok.
    + intros n data ret Hfuel. cbn [Msgpack._unpack_pairs].
      destruct n as [|n]; [apply consumes_ok|].
      apply (consumes_weaken 1); [lia|].
      apply consumes_bind; [apply IHobj; lia|].
      intros key rest Hrest.
      destruct (negb (Msgpack.allowed_map_key key)).
      * apply consumes_raise. discriminate.
      * apply (consumes_weaken 1); [lia|].
        apply consumes_bind; [apply IHobj; lia|].
        intros value rest' Hrest'. apply IHpairs. lia.
Qed.

(** [msgpack_unpackb] of the reference instance never runs out of fuel. *)
Lemma msgpack_unpackb_settled (packed : bytes) (raw : bool) :
  Msgpack.unpackb packed raw <> out_of_fuel.
Proof.
  unfold Msgpack.unpackb.
  destruct (proj1 (unpack_fuel raw (Msgpack.len packed) (2 * List.length packed + 2)) packed)
    as [Hs _]; [lia|].
  destruct (Msgpack._unpack _ raw _ packed) as [[ret rest]|e]; cbn [bind].
  - destruct rest; discriminate.
  - unfold out_of_fuel, unmodelled. cbn [settled] in Hs. congruence.
Qed.

(** *** gzip *)

Lemma split_at_rest (n : N) (l a b : bytes) :
  Gzip.split_at n l = (a, b) -> (List.length b <= List.length l)%nat.
Proof. intros E. pose proof (split_at_length _ _ _ _ E). lia. Qed.

Lemma settled_inflate (fuel : nat) : forall (data out : bytes),
  (List.length data <= fuel)%nat ->
  settled (Gzip.inflate fuel data out) /\
  forall decompressed unused_data,
    Gzip.inflate fuel data out = Ok (Gzip.AtEof decompressed unused_data) ->
    (List.length unused_data <= List.length data)%nat.
Proof.
  induction fuel as [|fuel IH]; intros data out Hfuel.
  - destruct data; [|cbn [List.length] in Hfuel; lia].
    split; [exact I|]. cbn. intros ? ? [=].
  - destruct data as [|h r]; [split; [exact I|]; cbn; intros ? ? [=]|].
    cbn [Gzip.inflate]. cbv zeta.
    destruct (N.land (N.shiftr (nb h) 1) 3 =? 0)%N.
    + destruct r as [|l0 [|l1 [|n0 [|n1 r']]]];
        try (split; [exact I|]; intros ? ? [=]).
      destruct (negb _).
      * split; [discriminate|]. intros ? ? [=].
      * destruct (Gzip.split_at _ r') as [chunk rest] eqn:E.
        pose proof (split_at_rest _ _ _ _ E) as Hrest.
        destruct (Gzip.len chunk <? _)%N; [split; [exact I|]; intros ? ? [=]|].
        destruct (N.testbit (nb h) 0).
        -- split; [exact I|]. intros ? ? [= _ <-]. cbn [List.length]. lia.
        -- cbn [List.length] in Hfuel.
           destruct (IH rest (out ++ chunk)%list) as [Hs Hc]; [lia|].
           split; [exact Hs|]. intros d u E'. specialize (Hc d u E').
           cbn [List.length]. lia.
    + destruct (_ =? 3)%N; split; try discriminate; intros ? ? [=].
Qed.

Lemma read_exact_spec (n : N) (data : bytes) :
  settled (Gzip.read_exact n data) /\
  forall a rest, Gzip.read_exact n data = Ok (a, rest) ->
                 (List.length rest <= List.length data)%nat.
Proof.
  unfold Gzip.read_exact. destruct (Gzip.split_at n data) as [a b] eqn:E.
  pose proof (split_at_rest _ _ _ _ E).
  destruct (Gzip.len a <? n)%N.
  - split; [discriminate|]. intros ? ? [=].
  - split; [exact I|]. intros ? ? [= <- <-]. assumption.
Qed.

Lemma skip_cstring_length (data : bytes) :
  (List.length (Gzip.skip_cstring data) <= List.length data)%nat.
Proof.
  induction data as [|s r IH]; cbn [Gzip.skip_cstring List.length]; [lia|].
  destruct (nb s =? 0)%N; lia.
Qed.

Lemma lstrip_zero_length (data : bytes) :
  (List.length (Gzip.lstrip_zero data) <= List.length data)%nat.
Proof.
  induction data as [|s r IH]; cbn [Gzip.lstrip_zero List.length]; [lia|].
  destruct (nb s =? 0)%N; cbn [List.length]; lia.
Qed.

Lemma list_eqb_length {A : Type} (eqb : A -> A -> bool) (a b : list A) :
  list_eqb eqb a b = true -> List.length a = List.length b.
Proof.
  revert b. induction a as [|x a IH]; intros [|y b]; cbn [list_eqb List.length];
    try discriminate; [reflexivity|].
  intros H. apply andb_prop in H. destruct H as [_ H]. rewrite (IH b H). reflexivity.
Qed.

Lemma read_gzip_header_spec (data : bytes) :
  settled (Gzip.read_gzip_header data) /\
  forall body, Gzip.read_gzip_header data = Ok (Some body) ->
               (List.length body < List.length data)%nat.
Proof.
  unfold Gzip.read_gzip_header.
  destruct (Gzip.split_at 2 data) as [magic r] eqn:E.
  pose proof (split_at_length _ _ _ _ E) as Hlen.
  destruct (Gzip.bytes_eqb magic []).
  { split; [exact I|]. intros ? [=]. }
  destruct (Gzip.bytes_eqb magic [x1f; x8b]) eqn:Hmagic; cbn [negb].
  2:{ split; [discriminate|]. intros ? [=]. }
  apply list_eqb_length in Hmagic. rewrite Hmagic in Hlen.
  cbn [List.length] in Hlen.
  destruct (read_exact_spec 8 r) as [Hs0 Hc0].
  destruct (Gzip.read_exact 8 r) as [[fixed r0]|e]; cbn [bind].
  2:{ split; [exact Hs0|]. intros ? [=]. }
  specialize (Hc0 _ _ eq_refl). cbv zeta.
  destruct (negb _); [split; [discriminate|]; intros ? [=]|].
  set (flag := nb (nth 1 fixed x00)).
  assert (Hextra : settled (if Gzip.flag_set flag Gzip.FEXTRA
            then '(xl, r1) <- Gzip.read_exact 2 r0 ;;
                 '(_, r1) <- Gzip.read_exact (le_value xl) r1 ;;
                 Ok r1
            else Ok r0) /\
          forall r1, (if Gzip.flag_set flag Gzip.FEXTRA
            then '(xl, r1) <- Gzip.read_exact 2 r0 ;;
                 '(_, r1) <- Gzip.read_exact (le_value xl) r1 ;;
                 Ok r1
            else Ok r0) = Ok r1 -> (List.length r1 <= List.length r0)%nat).
  { destruct (Gzip.flag_set flag Gzip.FEXTRA).
    - destruct (read_exact_spec 2 r0) as [Hs1 Hc1].
      destruct (Gzip.read_exact 2 r0) as [[xl r1]|e]; cbn [bind].
      + specialize (Hc1 _ _ eq_refl).
        destruct (read_exact_spec (le_value xl) r1) as [Hs2 Hc2].
        destruct (Gzip.read_exact (le_value xl) r1) as [[x r2]|e]; cbn [bind].
        * specialize (Hc2 _ _ eq_refl). split; [exact I|]. intros ? [= <-]. lia.
        * split; [exact Hs2|]. intros ? [=].
      + split; [exact Hs1|]. intros ? [=].
    - split; [exact I|]. intros ? [= <-]. lia. }
  destruct Hextra as [Hs1 Hc1].
  destruct (if Gzip.flag_set flag Gzip.FEXTRA then _ else _) as [r1|e]; cbn [bind].
  2:{ split; [exact Hs1|]. intros ? [=]. }
  specialize (Hc1 _ eq_refl).
  set (r2 := if Gzip.flag_set flag Gzip.FNAME then Gzip.skip_cstring r1 else r1).
  assert (H2 : (List.length r2 <= List.length r1)%nat).
  { subst r2. destruct (Gzip.flag_set flag Gzip.FNAME); [apply skip_cstring_length|lia]. }
  set (r3 := if Gzip.flag_set flag Gzip.FCOMMENT then Gzip.skip_cstring r2 else r2).
  assert (H3 : (List.length r3 <= List.length r2)%nat).
  { subst r3. destruct (Gzip.flag_set flag Gzip.FCOMMENT); [apply skip_cstring_length|lia]. }
  destruct (Gzip.flag_set flag Gzip.FHCRC).
  - destruct (read_exact_spec 2 r3) as [Hs4 Hc4].
    destruct (Gzip.read_exact 2 r3) as [[x r4]|e]; cbn [bind].
    + specialize (Hc4 _ _ eq_refl). split; [exact I|]. intros ? [= <-]. lia.
    + split; [exact Hs4|]. intros ? [=].
  - cbn [bind]. split; [exact I|]. intros ? [= <-]. lia.
Qed.

Lemma settled_decompress_members (fuel : nat) : forall (data members : bytes),
  (List.length data < fuel)%nat ->
  settled (Gzip.decompress_members fuel data members).
Proof.
  induction fuel as [|fuel IH]; intros data members Hfuel; [lia|].
  cbn [Gzip.decompress_members].
  destruct (read_gzip_header_spec data) as [Hs Hc].
  destruct (Gzip.read_gzip_header data) as [[body|]|e]; cbn [bind];
    [|exact I|exact Hs].
  specialize (Hc body eq_refl).
  destruct (settled_inflate (S (List.length body)) body []) as [Hs' Hc']; [lia|].
  destruct (Gzip.inflate _ body []) as [[decompressed unused_data|]|e]; cbn [bind];
    [|discriminate|exact Hs'].
  specialize (Hc' _ _ eq_refl).
  destruct (Gzip.len unused_data <? 8)%N; [discriminate|].
  destruct (Gzip.split_at 4 unused_data) as [crc r] eqn:E1.
  destruct (Gzip.split_at 4 r) as [length r'] eqn:E2.
  pose proof (split_at_rest _ _ _ _ E1). pose proof (split_at_rest _ _ _ _ E2).
  pose proof (lstrip_zero_length r').
  destruct (negb _); [discriminate|].
  destruct (negb _); [discriminate|].
  apply IH. lia.
Qed.

(** [gzip_decompress] of the reference instance never runs out of fuel. *)
Lemma gzip_decompress_settled (data : bytes) : Gzip.decompress data <> out_of_fuel.
Proof.
  pose proof (settled_decompress_members (S (List.length data)) data []) as Hs.
  unfold Gzip.decompress. specialize (Hs ltac:(lia)).
  destruct (Gzip.decompress_members _ data []); [discriminate|].
  unfold out_of_fuel, unmodelled. cbn [settled] in Hs. congruence.
Qed.

End ReferenceFuel.

(** ** The reference codecs: Base64 and gzip restore their input *)

Ltac pow2 :=
  repeat match goal with
         | |- context [(2 ^ ?k)%N] =>
             let v := eval vm_compute in (2 ^ k)%N in change (2 ^ k)%N with v
         end.

Ltac to_arith :=
  repeat first
    [ rewrite N.shiftr_div_pow2
    | rewrite N.shiftl_mul_pow2
    | progress change 0x3F%N with (N.ones 6)
    | progress change 0x0f%N with (N.ones 4)
    | progress change 0x03%N with (N.ones 2)
    | progress change 0xff%N with (N.ones 8)
    | rewrite N.land_ones ].

Section ReferenceRestores.

Import Ref.

Local Open Scope N_scope.


Lemma nb_lt (b : byte) : nb b < 256.
Proof. unfold nb. pose proof (Byte.to_N_bounded b). lia. Qed.

Lemma bn_nb (b : byte) : bn (nb b) = b.
Proof. destruct b; reflexivity. Qed.

Lemma nb_bn (n : N) : n < 256 -> nb (bn n) = n.
Proof.
  intros Hn. unfold bn, nb.
  replace (N.land n 0xff) with n.
  - destruct (Byte.of_N n) as [b|] eqn:E.
    + apply Byte.to_of_N. exact E.
    + pose proof (Byte.to_of_N_option_map n) as H. rewrite E in H. cbn in H.
      destruct (N.leb_spec n 255); [discriminate|lia].
  - change 0xff with (N.ones 8). rewrite N.land_ones. symmetry. apply N.mod_small. exact Hn.
Qed.

(** A property checked on every number below [n]. *)
Lemma forall_below (n : nat) (P : N -> bool) :
  forallb P (map N.of_nat (seq 0 n)) = true ->
  forall v, v < N.of_nat n -> P v = true.
Proof.
  intros H v Hv. rewrite forallb_forall in H. apply H.
  apply in_map_iff. exists (N.to_nat v). split; [lia|]. apply in_seq. lia.
Qed.

Lemma a2b_b2a_char (v : N) :
  v < 64 ->
  Base64.a2b_char (nb (Base64.b2a_char v)) = Some v /\
  (nb (Base64.b2a_char v) =? 61) = false /\
  (nb (Base64.b2a_char v) <? 128) = true.
Proof.
  intros Hv.
  pose proof (forall_below 64
    (fun v => match Base64.a2b_char (nb (Base64.b2a_char v)) with
              | Some w => w =? v
              | None => false
              end
              && negb (nb (Base64.b2a_char v) =? 61)
              && (nb (Base64.b2a_char v) <? 128)) eq_refl v Hv) as H.
  cbv beta in H. apply andb_prop in H. destruct H as [H H3].
  apply andb_prop in H. destruct H as [H1 H2].
  destruct (Base64.a2b_char (nb (Base64.b2a_char v))) as [w|]; [|discriminate].
  apply N.eqb_eq in H1. subst w.
  apply negb_true_iff in H2. auto.
Qed.

(** [lor] of a multiple of [2 ^ k] and a number below [2 ^ k] is their sum. *)
Lemma lor_shiftl_add (a b k : N) : b < 2 ^ k -> N.lor (N.shiftl a k) b = a * 2 ^ k + b.
Proof.
  intros Hb. rewrite <- N.shiftl_mul_pow2.
  rewrite <- N.lxor_lor, N.add_nocarry_lxor; try reflexivity.
  all: apply N.bits_inj; intros i; rewrite N.land_spec, N.bits_0;
    destruct (N.ltb_spec i k) as [Hi|Hi];
    [rewrite N.shiftl_spec_low by exact Hi; reflexivity|];
    destruct (N.eq_dec b 0) as [->|Hb0];
    [rewrite N.bits_0; apply andb_false_r|];
    rewrite (N.bits_above_log2 b i), andb_false_r; [reflexivity|];
    apply N.lt_le_trans with k; [|exact Hi];
    apply N.log2_lt_pow2; [lia|exact Hb].
Qed.

Lemma group_add (x y z : N) :
  y < 256 -> z < 256 -> Base64.group x y z = 65536 * x + 256 * y + z.
Proof.
  intros Hy Hz. unfold Base64.group.
  rewrite (lor_shiftl_add y z 8) by (pow2; lia).
  rewrite (lor_shiftl_add x _ 16) by (pow2; lia).
  pow2. lia.
Qed.
Local Ltac Zify.zify_post_hook ::= Z.to_euclidean_division_equations.
Lemma join_1 (x y z : N) :
  x < 256 -> y < 256 -> z < 256 ->
  let n := Base64.group x y z in
  N.land (N.lor (N.shiftl (N.land (N.shiftr n 18) 0x3F) 2)
                (N.shiftr (N.land (N.shiftr n 12) 0x3F) 4)) 0xff = x.
Proof.
  intros Hx Hy Hz n. subst n. rewrite group_add by assumption.
  rewrite lor_shiftl_add.
  - to_arith. pow2. lia.
  - to_arith. pow2. lia.
Qed.

Lemma join_2 (x y z : N) :
  x < 256 -> y < 256 -> z < 256 ->
  let n := Base64.group x y z in
  N.land (N.lor (N.shiftl (N.land (N.land (N.shiftr n 12) 0x3F) 0x0f) 4)
                (N.shiftr (N.land (N.shiftr n 6) 0x3F) 2)) 0xff = y.
Proof.
  intros Hx Hy Hz n. subst n. rewrite group_add by assumption.
  rewrite lor_shiftl_add.
  - to_arith. pow2. lia.
  - to_arith. pow2. lia.
Qed.

Lemma join_3 (x y z : N) :
  x < 256 -> y < 256 -> z < 256 ->
  let n := Base64.group x y z in
  N.land (N.lor (N.shiftl (N.land (N.land (N.shiftr n 6) 0x3F) 0x03) 6)
                (N.land (N.shiftr n 0) 0x3F)) 0xff = z.
Proof.
  intros Hx Hy Hz n. subst n. rewrite group_add by assumption.
  rewrite lor_shiftl_add.
  - to_arith. pow2. lia.
  - to_arith. pow2. lia.
Qed.

Lemma sextet_small (n k : N) : N.land (N.shiftr n k) 0x3F < 64.
Proof.
  change 0x3F with (N.ones 6). rewrite N.land_ones. apply N.mod_lt. discriminate.
Qed.

(** One step of the decoding loop on a character of the alphabet. *)
Lemma a2b_loop_sextet (n k : N) (rest : list N) (quad_pos leftchar pads : N)
    (out : bytes) :
  Base64.a2b_loop (nb (Base64.sextet n k) :: rest) quad_pos leftchar pads out =
  let v := N.land (N.shiftr n k) 0x3F in
  if quad_pos =? 0 then Base64.a2b_loop rest 1 v 0 out
  else if quad_pos =? 1 then
    Base64.a2b_loop rest 2 (N.land v 0x0f) 0
      (bn (N.lor (N.shiftl leftchar 2) (N.shiftr v 4)) :: out)
  else if quad_pos =? 2 then
    Base64.a2b_loop rest 3 (N.land v 0x03) 0
      (bn (N.lor (N.shiftl leftchar 4) (N.shiftr v 2)) :: out)
  else
    Base64.a2b_loop rest 0 0 0 (bn (N.lor (N.shiftl leftchar 6) v) :: out).
Proof.
  unfold Base64.sextet.
  destruct (a2b_b2a_char _ (sextet_small n k)) as (Hchar & Hpad & _).
  cbn [Base64.a2b_loop]. rewrite Hpad, Hchar. reflexivity.
Qed.

Lemma bn_land (n : N) : bn (N.land n 0xff) = bn n.
Proof. unfold bn. rewrite <- N.land_assoc. reflexivity. Qed.

Lemma bn_join (n : N) (b : byte) : N.land n 0xff = nb b -> bn n = b.
Proof. intros H. rewrite <- bn_land, H. apply bn_nb. Qed.

(** Induction on a list of bytes, three at a time. *)
Lemma bytes_ind3 (P : bytes -> Prop) :
  P [] -> (forall a, P [a]) -> (forall a b, P [a; b]) ->
  (forall a b c rest, P rest -> P (a :: b :: c :: rest)) ->
  forall data, P data.
Proof.
  intros H0 H1 H2 H3 data.
  remember (List.length data) as m eqn:Hm.
  assert (Hlen : (List.length data <= m)%nat) by lia. clear Hm.
  revert data Hlen. induction m as [|m IH]; intros data Hlen.
  - destruct data; [exact H0|cbn [List.length] in Hlen; lia].
  - destruct data as [|a [|b [|c rest]]]; auto.
    apply H3, IH. cbn [List.length] in Hlen. lia.
Qed.

Lemma a2b_loop_encode (data : bytes) (out : bytes) :
  Base64.a2b_loop (map nb (Base64.encode data)) 0 0 0 out = Ok (rev out ++ data)%list.
Proof.
  remember (List.length data) as m eqn:Hm.
  assert (Hlen : (List.length data <= m)%nat) by lia. clear Hm.
  revert data out Hlen. induction m as [|m IH]; intros data out Hlen.
  - destruct data; [|cbn [List.length] in Hlen; lia].
    cbn. rewrite app_nil_r. reflexivity.
  - destruct data as [|a [|b [|c rest]]].
    + cbn. rewrite app_nil_r. reflexivity.
    + cbn [Base64.encode map]. cbv zeta.
      repeat (rewrite a2b_loop_sextet; cbv zeta; cbn [N.eqb Pos.eqb]).
      rewrite (bn_join _ a) by (apply join_1; (apply nb_lt || reflexivity)).
      cbn. reflexivity.
    + cbn [Base64.encode map]. cbv zeta.
      repeat (rewrite a2b_loop_sextet; cbv zeta; cbn [N.eqb Pos.eqb]).
      rewrite (bn_join _ b) by (apply join_2; (apply nb_lt || reflexivity)).
      rewrite (bn_join _ a) by (apply join_1; (apply nb_lt || reflexivity)).
      cbn. rewrite <- !app_assoc. reflexivity.
    + cbn [Base64.encode map]. cbv zeta.
      repeat (rewrite a2b_loop_sextet; cbv zeta; cbn [N.eqb Pos.eqb]).
      rewrite (bn_join _ c) by (apply join_3; apply nb_lt).
      rewrite (bn_join _ b) by (apply join_2; apply nb_lt).
      rewrite (bn_join _ a) by (apply join_1; apply nb_lt).
      rewrite IH by (cbn [List.length] in Hlen; lia).
      cbn [rev]. rewrite <- !app_assoc. reflexivity.
Qed.

Lemma sextet_ascii (n k : N) : nb (Base64.sextet n k) < 128.
Proof.
  unfold Base64.sextet.
  destruct (a2b_b2a_char _ (sextet_small n k)) as (_ & _ & H).
  apply N.ltb_lt. exact H.
Qed.

Lemma encode_ascii (data : bytes) : Forall (fun b => nb b < 128) (Base64.encode data).
Proof.
  induction data as [|a|a b|a b c rest IH] using bytes_ind3; cbn [Base64.encode]; cbv zeta;
    repeat first [ apply Forall_nil | exact IH
                 | apply Forall_cons; [first [apply sextet_ascii | reflexivity]|] ].
Qed.

Lemma utf8_decode_ascii (data : bytes) :
  Forall (fun b => nb b < 128) data -> Utf8.decode data = Ok (map nb data).
Proof.
  induction 1 as [|b data Hb _ IH]; [reflexivity|].
  cbn [Utf8.decode map]. cbv zeta.
  apply N.ltb_lt in Hb. change 0x80 with 128. rewrite Hb, IH. reflexivity.
Qed.

Lemma forallb_ascii (data : bytes) :
  Forall (fun b => nb b < 128) data -> forallb (fun c => c <? 128) (map nb data) = true.
Proof.
  induction 1 as [|b data Hb _ IH]; [reflexivity|].
  cbn [map forallb]. apply N.ltb_lt in Hb. rewrite Hb, IH. reflexivity.
Qed.

(** Base64 text of the reference instance restores every record. *)
Lemma reference_base64_restores (record : bytes) :
  base64_restores (codecs := Ref.codecs) record.
Proof.
  unfold base64_restores. cbn [bytes_decode b2a_base64 a2b_base64 Ref.codecs].
  unfold Base64.b2a_base64. rewrite app_nil_r.
  rewrite (utf8_decode_ascii _ (encode_ascii record)). cbn [bind].
  unfold Base64.a2b_base64. rewrite (forallb_ascii _ (encode_ascii record)).
  apply (a2b_loop_encode record []).
Qed.


Lemma nb_bn_mod (n : N) : nb (bn n) = n mod 256.
Proof.
  unfold bn. change 0xff with (N.ones 8). rewrite N.land_ones.
  change (2 ^ 8) with 256.
  assert (H : n mod 256 < 256) by (apply N.mod_lt; discriminate).
  pose proof (nb_bn (n mod 256) H) as E. unfold bn in E.
  change 0xff with (N.ones 8) in E. rewrite N.land_ones in E.
  change (2 ^ 8) with 256 in E. rewrite N.Div0.mod_mod in E. exact E.
Qed.

Lemma le_value_cons (b : byte) (bs : bytes) :
  le_value (b :: bs) = nb b + 256 * le_value bs.
Proof.
  unfold le_value, be_value. cbn [rev]. rewrite fold_left_app. cbn [fold_left].
  rewrite lor_shiftl_add by (pose proof (nb_lt b); pow2; lia).
  pow2. lia.
Qed.

Lemma le_value_le_bytes (k : nat) : forall n,
  n < 2 ^ (8 * N.of_nat k) -> le_value (le_bytes k n) = n.
Proof.
  induction k as [|k IH]; intros n Hn.
  - cbn in Hn. cbn. lia.
  - cbn [le_bytes]. rewrite le_value_cons, nb_bn_mod, N.shiftr_div_pow2.
    change (2 ^ 8) with 256.
    rewrite IH.
    + lia.
    + replace (8 * N.of_nat (S k)) with (8 + 8 * N.of_nat k) in Hn by lia.
      rewrite N.pow_add_r in Hn. change (2 ^ 8) with 256 in Hn.
      apply N.Div0.div_lt_upper_bound. exact Hn.
Qed.

(** *** CRC-32 fits 32 bits *)

Lemma lxor_lt_pow2 (a b k : N) : a < 2 ^ k -> b < 2 ^ k -> N.lxor a b < 2 ^ k.
Proof.
  intros Ha Hb.
  destruct (N.eq_dec (N.lxor a b) 0) as [->|Hne]; [apply N.neq_0_lt_0, N.pow_nonzero; discriminate|].
  assert (Hk : 0 < k).
  { destruct (N.eq_dec k 0) as [->|]; [|lia].
    change (2 ^ 0) with 1 in Ha, Hb.
    assert (a = 0) by lia. assert (b = 0) by lia. subst. contradiction. }
  apply N.log2_lt_pow2; [lia|].
  apply N.le_lt_trans with (N.max (N.log2 a) (N.log2 b)); [apply N.log2_lxor|].
  apply N.max_lub_lt.
  - destruct (N.eq_dec a 0) as [->|]; [exact Hk|apply N.log2_lt_pow2; [lia|exact Ha]].
  - destruct (N.eq_dec b 0) as [->|]; [exact Hk|apply N.log2_lt_pow2; [lia|exact Hb]].
Qed.

Lemma crc_step_lt (c : N) : c < 2 ^ 32 -> Crc32.step c < 2 ^ 32.
Proof.
  intros Hc. unfold Crc32.step.
  assert (H : N.shiftr c 1 < 2 ^ 32).
  { rewrite N.shiftr_div_pow2. pow2. lia. }
  destruct (N.testbit c 0); [|exact H].
  apply lxor_lt_pow2; [exact H|]. pow2. lia.
Qed.

Lemma crc_update_lt (c : N) (b : byte) : c < 2 ^ 32 -> Crc32.update c b < 2 ^ 32.
Proof.
  intros Hc. unfold Crc32.update. cbv zeta.
  do 8 apply crc_step_lt.
  apply lxor_lt_pow2; [exact Hc|]. pose proof (nb_lt b). pow2. lia.
Qed.

Lemma crc32_lt (data : bytes) : Crc32.crc32 data < 2 ^ 32.
Proof.
  unfold Crc32.crc32.
  assert (H : forall c, c < 2 ^ 32 -> fold_left Crc32.update data c < 2 ^ 32).
  { induction data as [|b data IH]; intros c Hc; [exact Hc|].
    cbn [fold_left]. apply IH, crc_update_lt, Hc. }
  apply lxor_lt_pow2; [apply H|]; pow2; lia.
Qed.

(** *** Stored blocks *)

Lemma split_at_app (n : N) (a b : bytes) :
  Gzip.len a = n -> Gzip.split_at n (a ++ b) = (a, b).
Proof.
  unfold Gzip.len. revert n. induction a as [|x a IH]; intros n Hn.
  - cbn in Hn. subst n. destruct b; reflexivity.
  - cbn [List.length] in Hn. cbn [app Gzip.split_at].
    destruct (N.eqb_spec n 0); [lia|].
    rewrite IH by lia. reflexivity.
Qed.

Lemma split_at_spec (n : N) (l a b : bytes) :
  Gzip.split_at n l = (a, b) ->
  l = (a ++ b)%list /\ Gzip.len a <= n /\ (b <> [] -> Gzip.len a = n).
Proof.
  unfold Gzip.len. revert n a b. induction l as [|x l IH]; intros n a b; cbn [Gzip.split_at].
  - intros [= <- <-]. cbn. repeat split; [lia|congruence].
  - destruct (N.eqb_spec n 0).
    + intros [= <- <-]. cbn. repeat split; lia.
    + destruct (Gzip.split_at (n - 1) l) as [a' b'] eqn:E.
      intros [= <- <-]. destruct (IH _ _ _ E) as (-> & Hle & Hfull).
      cbn [List.length app]. repeat split; [lia|].
      intros Hb. specialize (Hfull Hb). lia.
Qed.

Lemma inflate_block (fuel : nat) (final : byte) (chunk more out : bytes) :
  Gzip.len chunk < 65536 ->
  N.land (N.shiftr (nb final) 1) 3 = 0 ->
  Gzip.inflate (S fuel)
    (final :: le_bytes 2 (Gzip.len chunk)
            ++ le_bytes 2 (N.lxor (Gzip.len chunk) 0xFFFF) ++ chunk ++ more) out
  = if N.testbit (nb final) 0 then Ok (Gzip.AtEof (out ++ chunk) more)
    else Gzip.inflate fuel more (out ++ chunk).
Proof.
  intros Hlen Htype.
  cbn [Gzip.inflate le_bytes app]. cbv zeta. rewrite Htype. cbn [N.eqb].
  change [bn (Gzip.len chunk); bn (N.shiftr (Gzip.len chunk) 8)]
    with (le_bytes 2 (Gzip.len chunk)).
  change [bn (N.lxor (Gzip.len chunk) 0xFFFF);
          bn (N.shiftr (N.lxor (Gzip.len chunk) 0xFFFF) 8)]
    with (le_bytes 2 (N.lxor (Gzip.len chunk) 0xFFFF)).
  rewrite !le_value_le_bytes
    by first [ pow2; lia
             | change (2 ^ (8 * N.of_nat 2)) with (2 ^ 16);
               apply lxor_lt_pow2; pow2; lia ].
  rewrite N.eqb_refl. cbn [negb].
  rewrite split_at_app by reflexivity. rewrite N.ltb_irrefl. reflexivity.
Qed.

Lemma inflate_deflate_stored (fuel : nat) : forall (fuel' : nat) (data out tail : bytes),
  (List.length data <= fuel)%nat ->
  (List.length data < fuel')%nat ->
  Gzip.inflate fuel' (Gzip.deflate_stored fuel data ++ tail) out
  = Ok (Gzip.AtEof (out ++ data) tail).
Proof.
  assert (Hlen : forall l : bytes, Gzip.len l = N.of_nat (List.length l)) by reflexivity.
  induction fuel as [|fuel IH]; intros fuel' data out tail Hfuel Hfuel';
    (destruct fuel' as [|fuel']; [lia|]);
    cbn [Gzip.deflate_stored];
    destruct (Gzip.split_at 65535 data) as [chunk rest] eqn:E;
    destruct (split_at_spec _ _ _ _ E) as (-> & Hchunk & Hfull);
    rewrite length_app in Hfuel, Hfuel'.
  - destruct rest; (rewrite <- app_comm_cons, <- !app_assoc, inflate_block;
      [|lia|reflexivity]); cbn [nb Byte.to_N N.testbit Pos.testbit];
      [rewrite app_nil_r; reflexivity|].
    cbn [List.length] in Hfuel. lia.
  - destruct rest as [|r rest].
    + rewrite <- app_comm_cons, <- !app_assoc, inflate_block; [|lia|reflexivity].
      cbn [nb Byte.to_N N.testbit Pos.testbit]. rewrite app_nil_r. reflexivity.
    + specialize (Hfull ltac:(discriminate)). rewrite Hlen in Hfull.
      rewrite <- app_assoc, <- app_comm_cons, <- !app_assoc, inflate_block;
        [|lia|reflexivity].
      cbn [nb Byte.to_N N.testbit Pos.testbit].
      rewrite IH by lia. rewrite <- app_assoc. reflexivity.
Qed.

Lemma deflate_stored_length (fuel : nat) : forall data : bytes,
  (List.length data <= fuel)%nat ->
  (List.length data <= List.length (Gzip.deflate_stored fuel data))%nat.
Proof.
  induction fuel as [|fuel IH]; intros data Hfuel;
    cbn [Gzip.deflate_stored];
    destruct (Gzip.split_at 65535 data) as [chunk rest] eqn:E;
    destruct (split_at_spec _ _ _ _ E) as (-> & _ & Hfull);
    rewrite length_app in *.
  - destruct rest; cbn [List.length] in *; [|lia].
    rewrite !length_app. lia.
  - destruct rest as [|r rest].
    + cbn [List.length]. rewrite !length_app. cbn [List.length]. lia.
    + specialize (Hfull ltac:(discriminate)). unfold Gzip.len in Hfull.
      rewrite length_app. cbn [List.length]. rewrite !length_app.
      specialize (IH (r :: rest)). cbn [List.length] in *. lia.
Qed.

Lemma read_simple_gzip_header (m0 m1 m2 m3 xfl os : byte) (rest : bytes) :
  Gzip.read_gzip_header
    (x1f :: x8b :: x08 :: x00 :: m0 :: m1 :: m2 :: m3 :: xfl :: os :: rest)
  = Ok (Some rest).
Proof.
  unfold Gzip.read_gzip_header.
  pose proof (split_at_app 2 [x1f; x8b]
                (x08 :: x00 :: m0 :: m1 :: m2 :: m3 :: xfl :: os :: rest) eq_refl) as E.
  cbn [app] in E. rewrite E. clear E.
  change (Gzip.bytes_eqb [x1f; x8b] []) with false.
  change (Gzip.bytes_eqb [x1f; x8b] [x1f; x8b]) with true. cbn [negb].
  unfold Gzip.read_exact.
  pose proof (split_at_app 8 [x08; x00; m0; m1; m2; m3; xfl; os] rest eq_refl) as E.
  cbn [app] in E. rewrite E. clear E.
  reflexivity.
Qed.

Lemma decompress_members_step (fuel : nat) (data members : bytes) :
  Gzip.decompress_members (S fuel) data members =
  (h <- Gzip.read_gzip_header data ;;
   match h with
   | None => Ok members
   | Some body =>
       i <- Gzip.inflate (S (List.length body)) body [] ;;
       match i with
       | Gzip.NotAtEof => Raise Gzip.EOFError
       | Gzip.AtEof decompressed unused_data =>
           if Gzip.len unused_data <? 8 then Raise Gzip.EOFError
           else
             let '(crc, r) := Gzip.split_at 4 unused_data in
             let '(length, r) := Gzip.split_at 4 r in
             if negb (le_value crc =? Crc32.crc32 decompressed)
             then Raise (Gzip.BadGzipFile "CRC check failed")
             else if negb (le_value length =? N.land (Gzip.len decompressed) 0xffffffff)
             then Raise (Gzip.BadGzipFile "Incorrect length of data produced")
             else Gzip.decompress_members fuel (Gzip.lstrip_zero r)
                    (members ++ decompressed)%list
       end
   end).
Proof. reflexivity. Qed.

(** One member, as [Gzip.compress] writes it, decompresses to its data. *)
Lemma decompress_member (fuel : nat) (m0 m1 m2 m3 xfl os : byte) (data members : bytes) :
  Gzip.decompress_members (S (S fuel))
    (x1f :: x8b :: x08 :: x00 :: m0 :: m1 :: m2 :: m3 :: xfl :: os
     :: Gzip.deflate_stored (List.length data) data
        ++ le_bytes 4 (Crc32.crc32 data)
        ++ le_bytes 4 (N.land (Gzip.len data) 0xffffffff))
    members
  = Ok (members ++ data)%list.
Proof.
  rewrite decompress_members_step, read_simple_gzip_header. cbn [bind].
  rewrite inflate_deflate_stored;
    [|lia|rewrite length_app;
          pose proof (deflate_stored_length (List.length data) data (le_n _)); lia].
  cbn [bind].
  change (Gzip.len (le_bytes 4 (Crc32.crc32 data)
                    ++ le_bytes 4 (N.land (Gzip.len data) 0xffffffff)) <? 8)
    with false. cbv iota.
  rewrite (split_at_app 4 (le_bytes 4 (Crc32.crc32 data))) by reflexivity.
  rewrite <- (app_nil_r (le_bytes 4 (N.land (Gzip.len data) 0xffffffff))).
  rewrite (split_at_app 4 (le_bytes 4 (N.land (Gzip.len data) 0xffffffff))) by reflexivity.
  rewrite !le_value_le_bytes.
  - cbn [app]. rewrite !N.eqb_refl. cbn [negb]. reflexivity.
  - change 0xffffffff with (N.ones 32). rewrite N.land_ones.
    apply N.mod_lt. discriminate.
  - apply crc32_lt.
Qed.

(** gzip of the reference instance restores every blob, at every clock
    reading that fits the header. *)
Lemma reference_gzip_restores (now : Z) (blob : bytes) :
  (0 <= now < 2 ^ 32)%Z -> gzip_restores (codecs := Ref.codecs) now blob.
Proof.
  intros Hnow. unfold gzip_restores.
  cbn [gzip_compress gzip_decompress Ref.codecs]. unfold Gzip.compress.
  change ((-1 <=? Pecyn._GZIP_COMPRESSION_LEVEL)%Z && (Pecyn._GZIP_COMPRESSION_LEVEL <=? 9)%Z)
    with true.
  cbn [negb].
  replace ((0 <=? now)%Z && (now <? 2 ^ 32)%Z) with true
    by (symmetry; apply andb_true_intro; split; [apply Z.leb_le|apply Z.ltb_lt]; lia).
  cbn [negb bind].
  change (Pecyn._GZIP_COMPRESSION_LEVEL =? 9)%Z with false.
  change (Pecyn._GZIP_COMPRESSION_LEVEL =? 1)%Z with false. cbv iota.
  unfold Gzip.decompress.
  cbn [le_bytes app List.length].
  apply (decompress_member _ _ _ _ _ _ _ blob []).
Qed.

End ReferenceRestores.

(** ** The reference codecs: msgpack restores what it packs *)

Section ReferenceMsgpack.

Import Ref.

Local Open Scope N_scope.
Local Ltac Zify.zify_post_hook ::= Z.to_euclidean_division_equations.

Lemma be_value_fold (k : nat) : forall n acc,
  fold_left (fun acc b => N.lor (N.shiftl acc 8) (nb b)) (be_bytes k n) acc
  = acc * 2 ^ (8 * N.of_nat k) + n mod 2 ^ (8 * N.of_nat k).
Proof.
  induction k as [|k IH]; intros n acc.
  - cbn [be_bytes fold_left]. change (2 ^ (8 * N.of_nat 0)) with 1.
    rewrite N.mod_1_r. lia.
  - cbn [be_bytes fold_left]. rewrite IH.
    rewrite lor_shiftl_add by (rewrite nb_bn_mod; pow2; lia).
    rewrite nb_bn_mod, N.shiftr_div_pow2.
    replace (8 * N.of_nat (S k)) with (8 * N.of_nat k + 8) by lia.
    rewrite N.pow_add_r. change (2 ^ 8) with 256.
    set (m := 2 ^ (8 * N.of_nat k)).
    assert (Hm : m <> 0) by (apply N.pow_nonzero; discriminate).
    rewrite (N.Div0.mod_mul_r n m 256). lia.
Qed.

Lemma be_value_be_bytes (k : nat) (n : N) :
  n < 2 ^ (8 * N.of_nat k) -> be_value (be_bytes k n) = n.
Proof.
  intros Hn. unfold be_value. rewrite be_value_fold, N.mod_small by exact Hn. lia.
Qed.

Lemma be_bytes_length (k : nat) (n : N) : List.length (be_bytes k n) = k.
Proof. revert n. induction k; intros n; cbn [be_bytes List.length]; auto. Qed.

Lemma msgpack_read_app (a tail : bytes) :
  Msgpack._read (Msgpack.len a) (a ++ tail) = Ok (a, tail).
Proof.
  unfold Msgpack._read. rewrite split_at_app by reflexivity.
  rewrite N.ltb_irrefl. reflexivity.
Qed.

Lemma read_uint_be_bytes (k : nat) (n : N) (tail : bytes) :
  n < 2 ^ (8 * N.of_nat k) ->
  Msgpack.read_uint (N.of_nat k) (be_bytes k n ++ tail) = Ok (n, tail).
Proof.
  intros Hn. unfold Msgpack.read_uint.
  replace (N.of_nat k) with (Msgpack.len (be_bytes k n))
    by (unfold Msgpack.len; rewrite be_bytes_length; reflexivity).
  rewrite msgpack_read_app. cbn [bind]. rewrite be_value_be_bytes by exact Hn.
  reflexivity.
Qed.

Lemma signed_mod (n m h : Z) :
  (m = 2 * h)%Z -> (- m <= 2 * n < m)%Z ->
  (if (n mod m <? m / 2)%Z then n mod m else n mod m - m)%Z = n.
Proof.
  intros -> Hn.
  assert (Hh : (0 < h)%Z) by lia.
  replace (2 * h / 2)%Z with h by (rewrite Z.mul_comm, Z.div_mul; lia).
  destruct (Z.lt_ge_cases n 0) as [Hneg|Hpos].
  - replace (n mod (2 * h))%Z with (n + 2 * h)%Z.
    + destruct (Z.ltb_spec (n + 2 * h) h); lia.
    + symmetry. rewrite <- (Z.mod_add n 1 (2 * h)) by lia.
      rewrite Z.mul_1_l. apply Z.mod_small. lia.
  - rewrite Z.mod_small by lia.
    destruct (Z.ltb_spec n h); lia.
Qed.

Lemma read_sint_be_bytes (k : nat) (n : Z) (tail : bytes) :
  (0 < k)%nat ->
  (- 2 ^ (8 * Z.of_nat k) <= 2 * n < 2 ^ (8 * Z.of_nat k))%Z ->
  Msgpack.read_sint (N.of_nat k)
    (be_bytes k (Z.to_N (n mod 2 ^ (8 * Z.of_nat k))) ++ tail) = Ok (n, tail).
Proof.
  intros Hk Hn. unfold Msgpack.read_sint.
  set (m := (2 ^ (8 * Z.of_nat k))%Z) in *.
  assert (Hm : (0 < m)%Z) by (apply Z.pow_pos_nonneg; lia).
  assert (Heven : (m = 2 * 2 ^ (8 * Z.of_nat k - 1))%Z).
  { subst m. rewrite <- Z.pow_succ_r by lia. f_equal. lia. }
  set (u := Z.to_N (n mod m)).
  assert (Hu : u < 2 ^ (8 * N.of_nat k)).
  { subst u m. pose proof (Z.mod_pos_bound n _ Hm) as Hb.
    apply N2Z.inj_lt. rewrite Z2N.id by lia. rewrite N2Z.inj_pow.
    replace (Z.of_N (8 * N.of_nat k)) with (8 * Z.of_nat k)%Z by lia.
    exact (proj2 Hb). }
  replace (N.of_nat k) with (Msgpack.len (be_bytes k u)) at 1
    by (unfold Msgpack.len; rewrite be_bytes_length; reflexivity).
  rewrite msgpack_read_app. cbn [bind]. rewrite be_value_be_bytes by exact Hu.
  replace (2 ^ (8 * Z.of_N (N.of_nat k)))%Z with m by (subst m; f_equal; lia).
  subst u. rewrite Z2N.id by (apply Z.mod_pos_bound; exact Hm).
  rewrite (signed_mod n m _ Heven Hn). reflexivity.
Qed.

(** *** Headers *)

Lemma read_header_fixint (size v : N) (rest : bytes) :
  v < 128 ->
  Msgpack._read_header size (bn v :: rest) = Ok (Msgpack.Immediate (PyInt (Z.of_N v)), rest).
Proof.
  intros Hv. unfold Msgpack._read_header. cbv zeta.
  rewrite nb_bn by lia.
  rewrite (forall_below 128 (fun v => N.land v 0x80 =? 0) eq_refl v Hv).
  reflexivity.
Qed.

Lemma read_header_negative_fixint (size v : N) (rest : bytes) :
  224 <= v < 256 ->
  Msgpack._read_header size (bn v :: rest)
  = Ok (Msgpack.Immediate (PyInt (Z.of_N v - 256)), rest).
Proof.
  intros Hv. unfold Msgpack._read_header. cbv zeta.
  rewrite nb_bn by lia.
  pose proof (forall_below 256
    (fun v => (v <? 224) || (negb (N.land v 0x80 =? 0) && (N.land v 0xE0 =? 0xE0)
                             && (N.lxor v 0xFF =? 255 - v)))
    eq_refl v (proj2 Hv)) as H.
  cbv beta in H. destruct (N.ltb_spec v 224); [lia|]. cbn [orb] in H.
  apply andb_prop in H. destruct H as [H H3].
  apply andb_prop in H. destruct H as [H1 H2].
  apply negb_true_iff in H1. apply N.eqb_eq in H3.
  rewrite H1, H2, H3.
  replace (-1 - Z.of_N (255 - v))%Z with (Z.of_N v - 256)%Z by lia. reflexivity.
Qed.

Ltac bools :=
  repeat match goal with
         | H : (_ && _) = true |- _ => apply andb_prop in H; destruct H
         | H : (_ <=? _)%Z = true |- _ => apply Z.leb_le in H
         | H : (_ <? _)%Z = true |- _ => apply Z.ltb_lt in H
         | H : (_ <=? _)%N = true |- _ => apply N.leb_le in H
         | H : (_ <? _)%N = true |- _ => apply N.ltb_lt in H
         | H : (_ <=? _)%N = false |- _ => apply N.leb_gt in H
         | H : (_ <? _)%N = false |- _ => apply N.ltb_ge in H
         end.

Lemma Ok_inj {A : Type} (a b : A) : Ok a = Ok b -> a = b.
Proof. intros [= H]. exact H. Qed.

Ltac pow2z :=
  repeat match goal with
         | |- context [(2 ^ ?k)%Z] =>
             let v := eval vm_compute in (2 ^ k)%Z in change (2 ^ k)%Z with v
         end.

(** An unsigned integer behind the header byte [h]. *)
Ltac uint_case k :=
  cbn [app];
  match goal with
  | |- Msgpack._read_header ?size (?h :: be_bytes _ (Z.to_N (?n mod ?m)) ++ ?tail) = _ =>
      rewrite (Z.mod_small n m) by (pow2z; lia);
      change (Msgpack._read_header size (h :: be_bytes k (Z.to_N n) ++ tail))
        with (Msgpack.as_int Z.of_N
                (Msgpack.read_uint (N.of_nat k) (be_bytes k (Z.to_N n) ++ tail)));
      rewrite (read_uint_be_bytes k (Z.to_N n) tail) by (pow2; lia);
      unfold Msgpack.as_int; cbn [bind]; rewrite Z2N.id by lia; reflexivity
  end.

(** A signed integer behind the header byte [h]. *)
Ltac sint_case k :=
  cbn [app];
  match goal with
  | |- Msgpack._read_header ?size (?h :: ?body ++ ?tail) = _ =>
      change (Msgpack._read_header size (h :: body ++ tail))
        with (Msgpack.as_int (fun n : Z => n)
                (Msgpack.read_sint (N.of_nat k) (body ++ tail)));
      rewrite (read_sint_be_bytes k) by (pow2z; lia);
      reflexivity
  end.

Lemma read_header_int (size : N) (n : Z) (bs tail : bytes) :
  Msgpack.pack_int n = Ok bs ->
  Msgpack._read_header size (bs ++ tail) = Ok (Msgpack.Immediate (PyInt n), tail).
Proof.
  unfold Msgpack.pack_int. cbv zeta.
  repeat match goal with
         | |- (if ?c then _ else _) = _ -> _ => destruct c eqn:?
         end;
    (intros H; first [apply Ok_inj in H; subst bs | discriminate H]); bools.
  - cbn [be_bytes app]. change (8 * N.of_nat 0) with 0.
    rewrite N.shiftr_0_r, Z.mod_small by (pow2z; lia).
    rewrite read_header_fixint by lia. rewrite Z2N.id by lia. reflexivity.
  - cbn [be_bytes app]. change (8 * N.of_nat 0) with 0.
    rewrite N.shiftr_0_r.
    replace (n mod 2 ^ (8 * Z.of_nat 1))%Z with (n + 256)%Z.
    + rewrite read_header_negative_fixint by lia.
      replace (Z.of_N (Z.to_N (n + 256)) - 256)%Z with n by lia. reflexivity.
    + symmetry. rewrite <- (Z.mod_add n 1) by (pow2z; lia).
      apply Z.mod_small. pow2z. lia.
  - uint_case 1%nat.
  - sint_case 1%nat.
  - uint_case 2%nat.
  - sint_case 2%nat.
  - uint_case 4%nat.
  - sint_case 4%nat.
  - uint_case 8%nat.
  - sint_case 8%nat.
Qed.

Ltac split_bools H :=
  cbv beta in H;
  repeat (let H' := fresh in apply andb_prop in H; destruct H as [H H']);
  repeat match goal with
         | H : negb _ = true |- _ => apply negb_true_iff in H
         end.

Lemma read_header_fixstr (size n : N) (rest : bytes) :
  n < 32 ->
  Msgpack._read_header size (bn (0xA0 + n) :: rest)
  = Msgpack.checked_len "max_str_len" (Msgpack.max_len size) Msgpack.RawHeader (Ok (n, rest)).
Proof.
  intros Hn. unfold Msgpack._read_header. cbv zeta. rewrite nb_bn by lia.
  pose proof (forall_below 32
    (fun n => negb (N.land (0xA0 + n) 0x80 =? 0)
              && negb (N.land (0xA0 + n) 0xE0 =? 0xE0)
              && (N.land (0xA0 + n) 0xE0 =? 0xA0)
              && (N.land (0xA0 + n) 0x1F =? n)) eq_refl n Hn) as H.
  split_bools H.
  match goal with E : (N.land _ 0x1F =? n) = true |- _ => apply N.eqb_eq in E; rewrite E end.
  repeat match goal with E : _ = _ |- _ => rewrite E; clear E end.
  reflexivity.
Qed.

Lemma read_header_fixarray (size n : N) (rest : bytes) :
  n < 16 ->
  Msgpack._read_header size (bn (0x90 + n) :: rest)
  = Msgpack.checked_len "max_array_len" (Msgpack.max_len size) Msgpack.ArrayHeader (Ok (n, rest)).
Proof.
  intros Hn. unfold Msgpack._read_header. cbv zeta. rewrite nb_bn by lia.
  pose proof (forall_below 16
    (fun n => negb (N.land (0x90 + n) 0x80 =? 0)
              && negb (N.land (0x90 + n) 0xE0 =? 0xE0)
              && negb (N.land (0x90 + n) 0xE0 =? 0xA0)
              && (N.land (0x90 + n) 0xF0 =? 0x90)
              && (N.land (0x90 + n) 0x0F =? n)) eq_refl n Hn) as H.
  split_bools H.
  match goal with E : (N.land _ 0x0F =? n) = true |- _ => apply N.eqb_eq in E; rewrite E end.
  repeat match goal with E : _ = _ |- _ => rewrite E; clear E end.
  reflexivity.
Qed.

Lemma read_header_fixmap (size n : N) (rest : bytes) :
  n < 16 ->
  Msgpack._read_header size (bn (0x80 + n) :: rest)
  = Msgpack.checked_len "max_map_len" (Msgpack.max_len size / 2) Msgpack.MapHeader (Ok (n, rest)).
Proof.
  intros Hn. unfold Msgpack._read_header. cbv zeta. rewrite nb_bn by lia.
  pose proof (forall_below 16
    (fun n => negb (N.land (0x80 + n) 0x80 =? 0)
              && negb (N.land (0x80 + n) 0xE0 =? 0xE0)
              && negb (N.land (0x80 + n) 0xE0 =? 0xA0)
              && negb (N.land (0x80 + n) 0xF0 =? 0x90)
              && (N.land (0x80 + n) 0xF0 =? 0x80)
              && (N.land (0x80 + n) 0x0F =? n)) eq_refl n Hn) as H.
  split_bools H.
  match goal with E : (N.land _ 0x0F =? n) = true |- _ => apply N.eqb_eq in E; rewrite E end.
  repeat match goal with E : _ = _ |- _ => rewrite E; clear E end.
  reflexivity.
Qed.

Lemma checked_len_ok (what : string) (limit n : N) (h : N -> Msgpack.header)
    (rest : bytes) :
  n <= limit -> Msgpack.checked_len what limit h (Ok (n, rest)) = Ok (h n, rest).
Proof.
  intros Hn. unfold Msgpack.checked_len. cbn [bind].
  destruct (N.ltb_spec limit n); [lia|reflexivity].
Qed.

Lemma max_len_le (size n : N) : n <= size -> n <= Msgpack.max_len size.
Proof. unfold Msgpack.max_len. destruct (N.eqb_spec size 0); pow2; lia. Qed.

Lemma max_len_half (size n : N) : 2 * n <= size -> n <= Msgpack.max_len size / 2.
Proof.
  intros H. unfold Msgpack.max_len. destruct (N.eqb_spec size 0); pow2; lia.
Qed.

(** A length of [k] bytes behind the header byte, read by [f]. *)
Ltac len_case k f :=
  cbn [app];
  match goal with
  | |- Msgpack._read_header ?size (?h :: be_bytes _ ?n ++ ?tail) = _ =>
      change (Msgpack._read_header size (h :: be_bytes k n ++ tail))
        with (f size (Msgpack.read_uint (N.of_nat k) (be_bytes k n ++ tail)));
      cbv beta;
      rewrite (read_uint_be_bytes k n tail) by (pow2; lia);
      apply checked_len_ok; first [apply max_len_le | apply max_len_half]; assumption
  end.

Lemma read_header_raw (size n : N) (h tail : bytes) :
  Msgpack._pack_raw_header true n = Ok h -> n <= size ->
  Msgpack._read_header size (h ++ tail) = Ok (Msgpack.RawHeader n, tail).
Proof.
  unfold Msgpack._pack_raw_header. cbn [andb].
  repeat match goal with
         | |- (if ?c then _ else _) = _ -> _ => destruct c eqn:?
         end;
    (intros H; first [apply Ok_inj in H; subst h | discriminate H]); bools; intros Hsize.
  - cbn [app]. rewrite read_header_fixstr by lia.
    apply checked_len_ok, max_len_le, Hsize.
  - len_case 1%nat (fun size => Msgpack.checked_len "max_str_len" (Msgpack.max_len size) Msgpack.RawHeader).
  - len_case 2%nat (fun size => Msgpack.checked_len "max_str_len" (Msgpack.max_len size) Msgpack.RawHeader).
  - len_case 4%nat (fun size => Msgpack.checked_len "max_str_len" (Msgpack.max_len size) Msgpack.RawHeader).
Qed.

Lemma read_header_bin (size n : N) (h tail : bytes) :
  Msgpack._pack_bin_header true n = Ok h -> n <= size ->
  Msgpack._read_header size (h ++ tail) = Ok (Msgpack.BinHeader n, tail).
Proof.
  unfold Msgpack._pack_bin_header. cbn [negb].
  repeat match goal with
         | |- (if ?c then _ else _) = _ -> _ => destruct c eqn:?
         end;
    (intros H; first [apply Ok_inj in H; subst h | discriminate H]); bools; intros Hsize.
  - len_case 1%nat (fun size => Msgpack.checked_len "max_bin_len" (Msgpack.max_len size) Msgpack.BinHeader).
  - len_case 2%nat (fun size => Msgpack.checked_len "max_bin_len" (Msgpack.max_len size) Msgpack.BinHeader).
  - len_case 4%nat (fun size => Msgpack.checked_len "max_bin_len" (Msgpack.max_len size) Msgpack.BinHeader).
Qed.

Lemma read_header_array (size n : N) (h tail : bytes) :
  Msgpack._pack_array_header n = Ok h -> n <= size ->
  Msgpack._read_header size (h ++ tail) = Ok (Msgpack.ArrayHeader n, tail).
Proof.
  unfold Msgpack._pack_array_header.
  repeat match goal with
         | |- (if ?c then _ else _) = _ -> _ => destruct c eqn:?
         end;
    (intros H; first [apply Ok_inj in H; subst h | discriminate H]); bools; intros Hsize.
  - cbn [app]. rewrite read_header_fixarray by lia.
    apply checked_len_ok, max_len_le, Hsize.
  - len_case 2%nat (fun size => Msgpack.checked_len "max_array_len" (Msgpack.max_len size) Msgpack.ArrayHeader).
  - len_case 4%nat (fun size => Msgpack.checked_len "max_array_len" (Msgpack.max_len size) Msgpack.ArrayHeader).
Qed.

Lemma read_header_map (size n : N) (h tail : bytes) :
  Msgpack._pack_map_header n = Ok h -> 2 * n <= size ->
  Msgpack._read_header size (h ++ tail) = Ok (Msgpack.MapHeader n, tail).
Proof.
  unfold Msgpack._pack_map_header.
  repeat match goal with
         | |- (if ?c then _ else _) = _ -> _ => destruct c eqn:?
         end;
    (intros H; first [apply Ok_inj in H; subst h | discriminate H]); bools; intros Hsize.
  - cbn [app]. rewrite read_header_fixmap by lia.
    apply checked_len_ok, max_len_half, Hsize.
  - len_case 2%nat (fun size => Msgpack.checked_len "max_map_len" (Msgpack.max_len size / 2) Msgpack.MapHeader).
  - len_case 4%nat (fun size => Msgpack.checked_len "max_map_len" (Msgpack.max_len size / 2) Msgpack.MapHeader).
Qed.

(** *** UTF-8 *)

Lemma lor_const (a k b : N) (c : N) :
  c = a * 2 ^ k -> b < 2 ^ k -> N.lor c b = c + b.
Proof.
  intros -> Hb. rewrite <- N.shiftl_mul_pow2, lor_shiftl_add by exact Hb.
  rewrite N.shiftl_mul_pow2. reflexivity.
Qed.

Lemma cont_facts (c k : N) :
  let r := (c / 2 ^ k) mod 64 in
  nb (Utf8.cont c k) = 0x80 + r /\ Utf8.is_cont (Utf8.cont c k) = true
  /\ Utf8.low6 (Utf8.cont c k) = r.
Proof.
  intros r. unfold Utf8.is_cont, Utf8.low6, Utf8.cont.
  assert (Hr : N.land (N.shiftr c k) 0x3F = r).
  { subst r. change 0x3F with (N.ones 6). rewrite N.land_ones, N.shiftr_div_pow2.
    reflexivity. }
  assert (Hlt : r < 64) by (subst r; apply N.mod_lt; discriminate).
  rewrite Hr, (lor_const 2 6 r 0x80) by (reflexivity || exact Hlt).
  rewrite nb_bn by lia.
  pose proof (forall_below 64
    (fun r => (N.land (0x80 + r) 0xC0 =? 0x80) && (N.land (0x80 + r) 0x3F =? r))
    eq_refl r Hlt) as H.
  cbv beta in H. apply andb_prop in H. destruct H as [H1 H2].
  apply N.eqb_eq in H2. auto.
Qed.

Lemma lead_facts (tag mask q bound : N) (a k : N) :
  tag = a * 2 ^ k -> q < bound -> bound <= 2 ^ k -> tag + bound <= 256 ->
  forallb (fun q => N.land (tag + q) mask =? q) (map N.of_nat (seq 0 (N.to_nat bound))) = true ->
  nb (bn (N.lor tag q)) = tag + q /\ N.land (tag + q) mask = q.
Proof.
  intros Htag Hq Hbound Hbyte Hall.
  rewrite (lor_const a k q tag Htag) by lia.
  rewrite nb_bn by lia. split; [reflexivity|].
  apply N.eqb_eq. apply (forall_below (N.to_nat bound) _ Hall). lia.
Qed.

Ltac ltb_case :=
  match goal with
  | |- context [?a <? ?b] => destruct (N.ltb_spec a b); [try lia|try lia]
  end.

Lemma decode_encode_point (c : N) (h t : bytes) (s : str) :
  Utf8.encode_point c = Ok h -> Utf8.decode t = Ok s ->
  Utf8.decode (h ++ t) = Ok (c :: s).
Proof.
  unfold Utf8.encode_point, Utf8.is_surrogate.
  destruct (N.ltb_spec c 0x80) as [H1|H1].
  { intros H Ht. apply Ok_inj in H. subst h. cbn [app Utf8.decode]. cbv zeta.
    rewrite nb_bn by lia. destruct (N.ltb_spec c 0x80); [|lia].
    rewrite Ht. reflexivity. }
  destruct (N.ltb_spec c 0x800) as [H2|H2].
  { intros H Ht. apply Ok_inj in H. subst h. cbn [app Utf8.decode]. cbv zeta.
    rewrite N.shiftr_div_pow2. change (2 ^ 6) with 64.
    destruct (lead_facts 0xC0 0x1F (c / 64) 32 3 6) as [Hlead Hmask];
      [reflexivity|lia|pow2; lia|lia|reflexivity|].
    destruct (cont_facts c 0) as (_ & Hcont & Hlow). cbv zeta in Hlow.
    change (2 ^ 0) with 1 in Hlow.
    rewrite Hlead, Hmask, Hcont, Hlow.
    repeat ltb_case.
    rewrite lor_shiftl_add by (pow2; lia).
    replace (c / 64 * 2 ^ 6 + c / 1 mod 64) with c by (pow2; lia).
    destruct (N.leb_spec 0x80 c); [|lia]. cbn [andb].
    rewrite Ht. reflexivity. }
  destruct (N.ltb_spec c 0x10000) as [H3|H3].
  { destruct ((0xD800 <=? c) && (c <=? 0xDFFF)) eqn:Hsur; [discriminate|].
    intros H Ht. apply Ok_inj in H. subst h. cbn [app Utf8.decode]. cbv zeta.
    rewrite N.shiftr_div_pow2. change (2 ^ 12) with 4096.
    destruct (lead_facts 0xE0 0x0F (c / 4096) 16 7 5) as [Hlead Hmask];
      [reflexivity|lia|pow2; lia|lia|reflexivity|].
    destruct (cont_facts c 6) as (_ & Hcont1 & Hlow1). cbv zeta in Hlow1.
    destruct (cont_facts c 0) as (_ & Hcont0 & Hlow0). cbv zeta in Hlow0.
    change (2 ^ 0) with 1 in Hlow0. change (2 ^ 6) with 64 in Hlow1.
    rewrite Hlead, Hmask, Hcont1, Hlow1, Hcont0, Hlow0.
    repeat ltb_case.
    rewrite (lor_shiftl_add (c / 64 mod 64)) by (pow2; lia).
    rewrite lor_shiftl_add by (pow2; lia).
    replace (c / 4096 * 2 ^ 12 + (c / 64 mod 64 * 2 ^ 6 + c / 1 mod 64)) with c
      by (pow2; lia).
    unfold Utf8.is_surrogate. rewrite Hsur.
    destruct (N.leb_spec 0x800 c); [|lia]. cbn [andb negb].
    rewrite Ht. reflexivity. }
  destruct (N.leb_spec c 0x10FFFF) as [H4|H4]; [|discriminate].
  intros H Ht. apply Ok_inj in H. subst h. cbn [app Utf8.decode]. cbv zeta.
  rewrite N.shiftr_div_pow2. change (2 ^ 18) with 262144.
  destruct (lead_facts 0xF0 0x07 (c / 262144) 8 15 4) as [Hlead Hmask];
    [reflexivity|lia|pow2; lia|lia|reflexivity|].
  destruct (cont_facts c 12) as (_ & Hcont2 & Hlow2). cbv zeta in Hlow2.
  destruct (cont_facts c 6) as (_ & Hcont1 & Hlow1). cbv zeta in Hlow1.
  destruct (cont_facts c 0) as (_ & Hcont0 & Hlow0). cbv zeta in Hlow0.
  change (2 ^ 0) with 1 in Hlow0. change (2 ^ 6) with 64 in Hlow1.
  change (2 ^ 12) with 4096 in Hlow2.
  rewrite Hlead, Hmask, Hcont2, Hlow2, Hcont1, Hlow1, Hcont0, Hlow0.
  repeat ltb_case.
  rewrite (lor_shiftl_add (c / 64 mod 64)) by (pow2; lia).
  rewrite (lor_shiftl_add (c / 4096 mod 64)) by (pow2; lia).
  rewrite lor_shiftl_add by (pow2; lia).
  replace (c / 262144 * 2 ^ 18
           + (c / 4096 mod 64 * 2 ^ 12 + (c / 64 mod 64 * 2 ^ 6 + c / 1 mod 64)))
    with c by (pow2; lia).
  destruct (N.leb_spec 0x10000 c); [|lia].
  destruct (N.leb_spec c 0x10FFFF); [|lia]. cbn [andb].
  rewrite Ht. reflexivity.
Qed.

(** What [Utf8.encode] writes, [Utf8.decode] reads back. *)
Lemma utf8_decode_encode (s : str) (data : bytes) :
  Utf8.encode s = Ok data -> Utf8.decode data = Ok s.
Proof.
  revert data. induction s as [|c s IH]; intros data; cbn [Utf8.encode].
  - intros H. apply Ok_inj in H. subst data. reflexivity.
  - destruct (Utf8.encode_point c) as [h|e] eqn:Hc; cbn [bind]; [|discriminate].
    destruct (Utf8.encode s) as [t|e]; cbn [bind]; [|discriminate].
    intros H. apply Ok_inj in H. subst data.
    apply decode_encode_point; [exact Hc|apply IH; reflexivity].
Qed.

(** *** Objects *)

Lemma pack_list (items : list pyobj) (nest_limit : Z) :
  Msgpack._pack true (PyList items) nest_limit =
  if (nest_limit <? 0)%Z then Raise (Msgpack.ValueError "recursion limit exceeded")
  else
    h <- Msgpack._pack_array_header (Msgpack.len items) ;;
    body <- pack_items nest_limit items ;;
    Ok (h ++ body)%list.
Proof. reflexivity. Qed.

Lemma pack_dict (items : list (pyobj * pyobj)) (nest_limit : Z) :
  Msgpack._pack true (PyDict items) nest_limit =
  if (nest_limit <? 0)%Z then Raise (Msgpack.ValueError "recursion limit exceeded")
  else
    h <- Msgpack._pack_map_header (Msgpack.len items) ;;
    body <- pack_pairs nest_limit items ;;
    Ok (h ++ body)%list.
Proof. reflexivity. Qed.

(** Induction on a Python object, through the items of lists and dicts. *)
Fixpoint pyobj_nested_ind (P : pyobj -> Prop)
    (HNone : P PyNone) (HBool : forall b, P (PyBool b)) (HInt : forall n, P (PyInt n))
    (HStr : forall s, P (PyStr s)) (HBytes : forall b, P (PyBytes b))
    (HList : forall items, Forall P items -> P (PyList items))
    (HDict : forall items, Forall (fun kv => P (fst kv) /\ P (snd kv)) items ->
                           P (PyDict items))
    (obj : pyobj) {struct obj} : P obj :=
  let rec := pyobj_nested_ind P HNone HBool HInt HStr HBytes HList HDict in
  match obj with
  | PyNone => HNone
  | PyBool b => HBool b
  | PyInt n => HInt n
  | PyStr s => HStr s
  | PyBytes b => HBytes b
  | PyList items =>
      HList items
        ((fix each (l : list pyobj) : Forall P l :=
            match l with
            | [] => Forall_nil P
            | x :: l' => Forall_cons x (rec x) (each l')
            end) items)
  | PyDict items =>
      HDict items
        ((fix each (l : list (pyobj * pyobj))
            : Forall (fun kv => P (fst kv) /\ P (snd kv)) l :=
            match l with
            | [] => Forall_nil _
            | (k, v) :: l' => Forall_cons (k, v) (conj (rec k) (rec v)) (each l')
            end) items)
  end.

Lemma unpack_step (fuel : nat) (raw : bool) (size : N) (data : bytes) :
  Msgpack._unpack (S fuel) raw size data =
  ('(h, rest) <- Msgpack._read_header size data ;;
   match h with
   | Msgpack.Immediate obj => Ok (obj, rest)
   | Msgpack.RawHeader n =>
       '(obj, rest) <- Msgpack._read n rest ;;
       if raw then Ok (PyBytes obj, rest)
       else s <- Utf8.decode obj ;; Ok (PyStr s, rest)
   | Msgpack.BinHeader n =>
       '(obj, rest) <- Msgpack._read n rest ;;
       Ok (PyBytes obj, rest)
   | Msgpack.ArrayHeader n =>
       '(ret, rest) <- Msgpack._unpack_items fuel raw size (N.to_nat n) rest ;;
       Ok (PyList ret, rest)
   | Msgpack.MapHeader n =>
       '(ret, rest) <- Msgpack._unpack_pairs fuel raw size (N.to_nat n) rest [] ;;
       Ok (PyDict ret, rest)
   end).
Proof. reflexivity. Qed.

Lemma unpacks_nonempty (obj : pyobj) (bs tail : bytes) (fuel : nat) (size : N) :
  (2 * List.length (bs ++ tail) + 1 <= fuel)%nat ->
  Msgpack._unpack fuel false size (bs ++ tail) = Ok (obj, tail) ->
  (1 <= List.length bs)%nat.
Proof.
  intros Hfuel H.
  destruct (proj1 (unpack_fuel false size fuel) (bs ++ tail) Hfuel) as [_ Hc].
  specialize (Hc _ _ H). rewrite length_app in Hc. lia.
Qed.

Ltac limit_ok :=
  match goal with
  | |- (if (?l <? 0)%Z then _ else _) = _ -> _ =>
      destruct (l <? 0)%Z; [intros H; discriminate H|]
  end.

Lemma unpacks_scalar (obj : pyobj) (h : bytes) :
  (forall nest_limit bs, Msgpack._pack true obj nest_limit = Ok bs -> bs = h) ->
  (forall size tail,
     Msgpack._read_header size (h ++ tail) = Ok (Msgpack.Immediate obj, tail)) ->
  unpacks obj.
Proof.
  intros Hpack Hread nest_limit bs tail fuel size Hbs _ _ Hfuel.
  apply Hpack in Hbs. subst bs.
  destruct fuel as [|fuel]; [lia|].
  rewrite unpack_step, Hread. reflexivity.
Qed.

Lemma unpacks_none : unpacks PyNone.
Proof.
  apply (unpacks_scalar _ [xc0]).
  - intros nest_limit bs. cbn [Msgpack._pack]. limit_ok.
    intros H. apply Ok_inj in H. auto.
  - reflexivity.
Qed.

Lemma unpacks_bool (b : bool) : unpacks (PyBool b).
Proof.
  apply (unpacks_scalar _ [if b then xc3 else xc2]).
  - intros nest_limit bs. cbn [Msgpack._pack]. limit_ok.
    intros H. apply Ok_inj in H. auto.
  - destruct b; reflexivity.
Qed.

Lemma unpacks_int (n : Z) : unpacks (PyInt n).
Proof.
  intros nest_limit bs tail fuel size Hbs _ _ Hfuel.
  cbn [Msgpack._pack] in Hbs. revert Hbs. limit_ok. intros Hbs.
  destruct fuel as [|fuel]; [lia|].
  rewrite unpack_step, (read_header_int size n bs tail Hbs). reflexivity.
Qed.

Lemma len_app (a b : bytes) : Msgpack.len (a ++ b) = Msgpack.len a + Msgpack.len b.
Proof. unfold Msgpack.len. rewrite length_app. lia. Qed.

Lemma unpacks_str (s : str) : unpacks (PyStr s).
Proof.
  intros nest_limit bs tail fuel size Hbs _ Hsize Hfuel.
  cbn [Msgpack._pack] in Hbs. revert Hbs. limit_ok.
  destruct (Utf8.encode s) as [data|e] eqn:Hdata; cbn [bind]; [|intros H; discriminate H].
  destruct (2 ^ 32 <=? Msgpack.len data); [intros H; discriminate H|].
  destruct (Msgpack._pack_raw_header true (Msgpack.len data)) as [h|e] eqn:Hh;
    cbn [bind]; [|intros H; discriminate H].
  intros Hbs. apply Ok_inj in Hbs. subst bs.
  rewrite len_app in Hsize.
  destruct fuel as [|fuel]; [lia|].
  rewrite unpack_step, <- app_assoc.
  rewrite (read_header_raw size _ h _ Hh) by lia. cbn [bind].
  rewrite msgpack_read_app. cbn [bind].
  rewrite (utf8_decode_encode s data Hdata). reflexivity.
Qed.

Lemma unpacks_bytes (b : bytes) : unpacks (PyBytes b).
Proof.
  intros nest_limit bs tail fuel size Hbs _ Hsize Hfuel.
  cbn [Msgpack._pack] in Hbs. revert Hbs. limit_ok.
  destruct (2 ^ 32 <=? Msgpack.len b); [intros H; discriminate H|].
  destruct (Msgpack._pack_bin_header true (Msgpack.len b)) as [h|e] eqn:Hh;
    cbn [bind]; [|intros H; discriminate H].
  intros Hbs. apply Ok_inj in Hbs. subst bs.
  rewrite len_app in Hsize.
  destruct fuel as [|fuel]; [lia|].
  rewrite unpack_step, <- app_assoc.
  rewrite (read_header_bin size _ h _ Hh) by lia. cbn [bind].
  rewrite msgpack_read_app. reflexivity.
Qed.

Lemma unpack_items_step (fuel n : nat) (raw : bool) (size : N) (data : bytes) :
  Msgpack._unpack_items (S fuel) raw size (S n) data =
  ('(x, rest) <- Msgpack._unpack fuel raw size data ;;
   '(xs, rest) <- Msgpack._unpack_items fuel raw size n rest ;;
   Ok (x :: xs, rest)).
Proof. reflexivity. Qed.

Lemma unpack_pairs_step (fuel n : nat) (raw : bool) (size : N) (data : bytes)
    (ret : list (pyobj * pyobj)) :
  Msgpack._unpack_pairs (S fuel) raw size (S n) data ret =
  ('(key, rest) <- Msgpack._unpack fuel raw size data ;;
   if negb (Msgpack.allowed_map_key key)
   then Raise (Msgpack.ValueError "key type is not allowed for map key")
   else
     '(value, rest) <- Msgpack._unpack fuel raw size rest ;;
     Msgpack._unpack_pairs fuel raw size n rest (Msgpack.dict_set ret key value)).
Proof. reflexivity. Qed.

Lemma unpack_items_pack (items : list pyobj) :
  Forall unpacks items ->
  forall (nest_limit : Z) (body tail : bytes) (fuel : nat) (size : N),
    pack_items nest_limit items = Ok body ->
    forallb keys_ok items = true ->
    Msgpack.len body <= size ->
    (2 * List.length (body ++ tail) + 2 <= fuel)%nat ->
    Msgpack._unpack_items fuel false size (List.length items) (body ++ tail)
    = Ok (items, tail)
    /\ (List.length items <= List.length body)%nat.
Proof.
  induction 1 as [|x items Hx _ IH]; intros nest_limit body tail fuel size Hbody Hkeys Hsize Hfuel.
  - cbn [pack_items] in Hbody. apply Ok_inj in Hbody. subst body.
    destruct fuel; (split; [reflexivity|cbn; lia]).
  - cbn [pack_items] in Hbody.
    destruct (Msgpack._pack true x (nest_limit - 1)) as [a|e] eqn:Ha;
      cbn [bind] in Hbody; [|discriminate Hbody].
    fold (pack_items nest_limit) in Hbody.
    destruct (pack_items nest_limit items) as [b|e] eqn:Hb;
      cbn [bind] in Hbody; [|discriminate Hbody].
    apply Ok_inj in Hbody. subst body.
    cbn [forallb] in Hkeys. apply andb_prop in Hkeys. destruct Hkeys as [Hkx Hkl].
    rewrite len_app in Hsize. rewrite <- app_assoc in *.
    destruct fuel as [|fuel]; [lia|].
    cbn [List.length]. rewrite unpack_items_step.
    assert (Hux : Msgpack._unpack fuel false size (a ++ b ++ tail) = Ok (x, (b ++ tail)%list))
      by (apply (Hx (nest_limit - 1)%Z); [exact Ha|exact Hkx|lia|lia]).
    pose proof (unpacks_nonempty x a (b ++ tail) fuel size ltac:(lia) Hux) as Hne.
    rewrite Hux. cbn [bind].
    rewrite length_app in Hfuel.
    destruct (IH nest_limit b tail fuel size Hb Hkl ltac:(lia) ltac:(lia)) as [Hul Hlen].
    rewrite Hul. cbn [bind]. split; [reflexivity|].
    rewrite length_app. lia.
Qed.

Lemma array_header_nonempty (n : N) (h : bytes) :
  Msgpack._pack_array_header n = Ok h -> (1 <= List.length h)%nat.
Proof.
  unfold Msgpack._pack_array_header.
  repeat match goal with
         | |- (if ?c then _ else _) = _ -> _ => destruct c
         end;
    (intros H; first [apply Ok_inj in H; subst h | discriminate H]);
    cbn [List.length]; lia.
Qed.

Lemma map_header_nonempty (n : N) (h : bytes) :
  Msgpack._pack_map_header n = Ok h -> (1 <= List.length h)%nat.
Proof.
  unfold Msgpack._pack_map_header.
  repeat match goal with
         | |- (if ?c then _ else _) = _ -> _ => destruct c
         end;
    (intros H; first [apply Ok_inj in H; subst h | discriminate H]);
    cbn [List.length]; lia.
Qed.

Lemma unpacks_list (items : list pyobj) : Forall unpacks items -> unpacks (PyList items).
Proof.
  intros Hitems nest_limit bs tail fuel size Hbs Hkeys Hsize Hfuel.
  rewrite pack_list in Hbs. revert Hbs. limit_ok.
  destruct (Msgpack._pack_array_header (Msgpack.len items)) as [h|e] eqn:Hh;
    cbn [bind]; [|intros H; discriminate H].
  destruct (pack_items nest_limit items) as [body|e] eqn:Hbody;
    cbn [bind]; [|intros H; discriminate H].
  intros Hbs. apply Ok_inj in Hbs. subst bs.
  cbn [keys_ok] in Hkeys. rewrite len_app in Hsize.
  rewrite <- app_assoc in *. rewrite length_app in Hfuel.
  pose proof (array_header_nonempty _ _ Hh) as Hne.
  destruct fuel as [|fuel]; [lia|].
  destruct (unpack_items_pack items Hitems nest_limit body tail fuel size Hbody Hkeys
              ltac:(lia) ltac:(lia)) as [Hul Hlen].
  rewrite unpack_step.
  rewrite (read_header_array size _ h _ Hh) by (unfold Msgpack.len in *; lia).
  cbn [bind]. unfold Msgpack.len. rewrite Nat2N.id, Hul. reflexivity.
Qed.

Lemma allowed_key_ok (key : pyobj) : Msgpack.allowed_map_key key = true -> keys_ok key = true.
Proof. destruct key; cbn; congruence. Qed.

Lemma dict_set_fresh (ret : list (pyobj * pyobj)) (key value : pyobj) :
  (forall k, In k (map fst ret) -> Msgpack.key_eqb k key = false) ->
  Msgpack.dict_set ret key value = (ret ++ [(key, value)])%list.
Proof.
  induction ret as [|[k v] ret IH]; intros Hfresh; cbn [Msgpack.dict_set app].
  - reflexivity.
  - rewrite (Hfresh k) by (cbn; auto).
    rewrite IH; [reflexivity|]. intros k' Hk'. apply Hfresh. cbn. auto.
Qed.

Lemma unpack_pairs_pack (items : list (pyobj * pyobj)) :
  Forall (fun kv => unpacks (fst kv) /\ unpacks (snd kv)) items ->
  forall (nest_limit : Z) (body tail : bytes) (fuel : nat) (size : N)
         (ret : list (pyobj * pyobj)),
    pack_pairs nest_limit items = Ok body ->
    forallb Msgpack.allowed_map_key (map fst items) = true ->
    forallb (fun kv => keys_ok (snd kv)) items = true ->
    distinct_keys (map fst items) = true ->
    (forall k, In k (map fst ret) ->
               existsb (Msgpack.key_eqb k) (map fst items) = false) ->
    Msgpack.len body <= size ->
    (2 * List.length (body ++ tail) + 2 <= fuel)%nat ->
    Msgpack._unpack_pairs fuel false size (List.length items) (body ++ tail) ret
    = Ok ((ret ++ items)%list, tail)
    /\ (2 * List.length items <= List.length body)%nat.
Proof.
  induction 1 as [|[k v] items [Hk Hv] _ IH];
    intros nest_limit body tail fuel size ret Hbody Hallowed Hvalues Hdistinct Hfresh
           Hsize Hfuel.
  - cbn [pack_pairs] in Hbody. apply Ok_inj in Hbody. subst body.
    rewrite app_nil_r. destruct fuel; (split; [reflexivity|cbn; lia]).
  - cbn [fst snd] in Hk, Hv. cbn [pack_pairs] in Hbody.
    destruct (Msgpack._pack true k (nest_limit - 1 - 1)) as [a|e] eqn:Ha;
      cbn [bind] in Hbody; [|discriminate Hbody].
    destruct (Msgpack._pack true v (nest_limit - 1 - 1)) as [b|e] eqn:Hb;
      cbn [bind] in Hbody; [|discriminate Hbody].
    fold (pack_pairs nest_limit) in Hbody.
    destruct (pack_pairs nest_limit items) as [c|e] eqn:Hc;
      cbn [bind] in Hbody; [|discriminate Hbody].
    apply Ok_inj in Hbody. subst body.
    cbn [map fst forallb] in Hallowed. apply andb_prop in Hallowed.
    destruct Hallowed as [Hak Hal].
    cbn [forallb snd] in Hvalues. apply andb_prop in Hvalues.
    destruct Hvalues as [Hvk Hvl].
    cbn [map fst distinct_keys] in Hdistinct. apply andb_prop in Hdistinct.
    destruct Hdistinct as [Hdk Hdl]. apply negb_true_iff in Hdk.
    rewrite !len_app in Hsize. rewrite <- !app_assoc in *.
    destruct fuel as [|fuel]; [lia|].
    cbn [List.length]. rewrite unpack_pairs_step.
    assert (Huk : Msgpack._unpack fuel false size (a ++ b ++ c ++ tail)
                  = Ok (k, (b ++ c ++ tail)%list))
      by (apply (Hk (nest_limit - 1 - 1)%Z);
          [exact Ha|apply allowed_key_ok, Hak|lia|lia]).
    pose proof (unpacks_nonempty k a (b ++ c ++ tail)%list fuel size ltac:(lia) Huk) as Hna.
    rewrite Huk. cbn [bind]. rewrite Hak. cbn [negb].
    rewrite length_app in Hfuel.
    assert (Huv : Msgpack._unpack fuel false size (b ++ c ++ tail)
                  = Ok (v, (c ++ tail)%list))
      by (apply (Hv (nest_limit - 1 - 1)%Z); [exact Hb|exact Hvk|lia|lia]).
    pose proof (unpacks_nonempty v b (c ++ tail)%list fuel size ltac:(lia) Huv) as Hnb.
    rewrite Huv. cbn [bind].
    rewrite length_app in Hfuel.
    rewrite dict_set_fresh.
    2:{ intros k0 Hk0. specialize (Hfresh k0 Hk0). cbn [map fst existsb] in Hfresh.
        apply orb_false_elim in Hfresh. exact (proj1 Hfresh). }
    destruct (IH nest_limit c tail fuel size (ret ++ [(k, v)])%list Hc Hal Hvl Hdl)
      as [Hul Hlen]; [|lia|lia|].
    { intros k0 Hk0. rewrite map_app in Hk0. apply in_app_or in Hk0.
      destruct Hk0 as [Hk0|Hk0].
      - specialize (Hfresh k0 Hk0). cbn [map fst existsb] in Hfresh.
        apply orb_false_elim in Hfresh. exact (proj2 Hfresh).
      - cbn in Hk0. destruct Hk0 as [<-|[]]. exact Hdk. }
    rewrite Hul, <- app_assoc. split; [reflexivity|].
    rewrite !length_app. lia.
Qed.

Lemma unpacks_dict (items : list (pyobj * pyobj)) :
  Forall (fun kv => unpacks (fst kv) /\ unpacks (snd kv)) items ->
  unpacks (PyDict items).
Proof.
  intros Hitems nest_limit bs tail fuel size Hbs Hkeys Hsize Hfuel.
  rewrite pack_dict in Hbs. revert Hbs. limit_ok.
  destruct (Msgpack._pack_map_header (Msgpack.len items)) as [h|e] eqn:Hh;
    cbn [bind]; [|intros H; discriminate H].
  destruct (pack_pairs nest_limit items) as [body|e] eqn:Hbody;
    cbn [bind]; [|intros H; discriminate H].
  intros Hbs. apply Ok_inj in Hbs. subst bs.
  cbn [keys_ok] in Hkeys. apply andb_prop in Hkeys. destruct Hkeys as [Hkeys Hvalues].
  apply andb_prop in Hkeys. destruct Hkeys as [Hallowed Hdistinct].
  rewrite len_app in Hsize.
  rewrite <- app_assoc in *. rewrite length_app in Hfuel.
  pose proof (map_header_nonempty _ _ Hh) as Hne.
  destruct fuel as [|fuel]; [lia|].
  destruct (unpack_pairs_pack items Hitems nest_limit body tail fuel size []
              Hbody Hallowed Hvalues Hdistinct) as [Hul Hlen];
    [intros k []|lia|lia|].
  rewrite unpack_step.
  rewrite (read_header_map size _ h _ Hh) by (unfold Msgpack.len in *; lia).
  cbn [bind]. unfold Msgpack.len. rewrite Nat2N.id, Hul. reflexivity.
Qed.

(** Every object is read back from its encoding. *)
Lemma unpacks_all (obj : pyobj) : unpacks obj.
Proof.
  induction obj using pyobj_nested_ind;
    auto using unpacks_none, unpacks_bool, unpacks_int, unpacks_str, unpacks_bytes,
               unpacks_list, unpacks_dict.
Qed.

(** msgpack of the reference instance restores every document it packs,
    when the keys of its dicts are [str] or [bytes] objects and distinct. *)
Lemma reference_msgpack_restores (doc : pyobj) (blob : bytes) :
  Msgpack.packb doc true = Ok blob ->
  keys_ok doc = true ->
  msgpack_restores (codecs := Ref.codecs) doc.
Proof.
  intros Hblob Hkeys. unfold msgpack_restores.
  cbn [msgpack_packb msgpack_unpackb Ref.codecs]. rewrite Hblob. cbn [bind].
  unfold Msgpack.unpackb.
  pose proof (unpacks_all doc Msgpack.DEFAULT_RECURSE_LIMIT blob []
                (2 * List.length blob + 2)%nat (Msgpack.len blob) Hblob Hkeys
                (N.le_refl _)) as H.
  rewrite app_nil_r in H. rewrite H by lia. reflexivity.
Qed.

End ReferenceMsgpack.

(** ** The envelope on the reference codecs *)

Section Reference.

Import Pecyn Sample.

#[local] Existing Instance Ref.codecs.

(** The reference instance meets the requirements of the round trips for
    every document that it packs and whose dicts have distinct [str] or
    [bytes] keys, at every clock reading that fits the gzip header: as bytes
    and as text, with and without compression. *)
Lemma reference_roundtrip (now : Z) (D : pyobj) (compress : bool) (blob : bytes) :
  0 <= now < 2 ^ 32 ->
  Ref.Msgpack.packb D true = Ok blob ->
  Ref.keys_ok D = true ->
  (exists record, packb now D (Some (PyBool compress)) = Ok record /\
                  unpackb record = Ok D) /\
  (exists text, pack now D (Some (PyBool compress)) = Ok text /\
                unpack text = Ok D).
Proof.
  intros Hnow Hblob Hkeys.
  pose proof (reference_msgpack_restores D blob Hblob Hkeys) as Hmsgpack.
  split.
  - apply roundtrip_bytes; [exact Hmsgpack|].
    intros ? _ _. apply reference_gzip_restores, Hnow.
  - apply roundtrip_text; [exact Hmsgpack| |].
    + intros ? _ _. apply reference_gzip_restores, Hnow.
    + intros record _. apply reference_base64_restores.
Qed.

(** The example vector: [{"a": 1}] without compression. *)
Example packb_a1 :
  packb clock doc_a1 (Some (PyBool false)) = Ok [x00; x01; x81; xa1; x61; x01]
  /\ unpackb [x00; x01; x81; xa1; x61; x01] = Ok doc_a1.
Proof. split; vm_compute; reflexivity. Qed.

Example packb_empty_flags :
  nth_error (record_of doc_empty true) 1 = Some x11
  /\ nth_error (record_of doc_empty false) 1 = Some x01.
Proof. split; vm_compute; reflexivity. Qed.

Example pack_a1 :
  pack clock doc_a1 None = Ok (text "AAGBoWEB")
  /\ unpack (text "AAGBoWEB") = Ok doc_a1.
Proof. split; vm_compute; reflexivity. Qed.

Lemma packb_header_and_payload_witness :
  packb clock doc_a1 (Some (PyBool true)) = Ok record_a1_gzip /\
  nth_error record_a1_gzip 0 = Some x00 /\
  nth_error record_a1_gzip 1 = Some x11 /\
  exists blob : bytes,
    msgpack_packb doc_a1 true = Ok blob /\
    gzip_compress blob _GZIP_COMPRESSION_LEVEL clock
    = Ok (slice_from _HEADER_BLOCK_SIZE record_a1_gzip).
Proof.
  split; [vm_compute; reflexivity|].
  apply (packb_header_and_payload clock doc_a1 true record_a1_gzip).
  vm_compute; reflexivity.
Defined.

Lemma unpackb_packb_roundtrip_witness :
  msgpack_restores doc_nested /\
  gzip_restores clock (record_of doc_nested false) /\
  (record <- packb clock doc_nested (Some (PyBool true)) ;; unpackb record)
  = Ok doc_nested.
Proof.
  split; [vm_compute; reflexivity|].
  split; [vm_compute; reflexivity|].
  apply (unpackb_packb_roundtrip clock doc_nested true).
  - vm_compute; reflexivity.
  - intros blob _ Hblob. vm_compute in Hblob. injection Hblob as <-.
    vm_compute; reflexivity.
Defined.

Lemma unpack_pack_roundtrip_witness :
  msgpack_restores doc_nested /\
  base64_restores (record_of doc_nested true) /\
  (text <- pack clock doc_nested (Some (PyBool true)) ;; unpack text)
  = Ok doc_nested.
Proof.
  split; [vm_compute; reflexivity|].
  split; [vm_compute; reflexivity|].
  apply (unpack_pack_roundtrip clock doc_nested true).
  - vm_compute; reflexivity.
  - intros blob _ Hblob. vm_compute in Hblob. injection Hblob as <-.
    vm_compute; reflexivity.
  - intros record Hrecord. vm_compute in Hrecord. injection Hrecord as <-.
    vm_compute; reflexivity.
Defined.

Lemma unpackb_short_record_witness :
  (List.length [x00] < 2)%nat /\
  unpackb [x00] = Raise (Exn "ValueError" "Invalid header block").
Proof.
  split; [simpl; lia|].
  apply (unpackb_short_record [x00]). simpl; lia.
Defined.

Lemma unpackb_version_mismatch_witness :
  x01 <> x00 /\
  unpackb [x01; x01; xc0]
  = Raise (Exn "ValueError" "Unsupported pack version: 1 != 0").
Proof.
  split; [discriminate|].
  apply (unpackb_version_mismatch x01 x01 [xc0]). discriminate.
Defined.

Lemma unpackb_decompression_error_witness :
  Z.testbit (int_of_byte x11) 4 = true /\
  gzip_decompress (slice_from _HEADER_BLOCK_SIZE record_a1_truncated)
  = Raise Ref.Gzip.EOFError /\
  unpackb record_a1_truncated = Raise Ref.Gzip.EOFError.
Proof.
  split; [reflexivity|].
  split; [vm_compute; reflexivity|].
  apply (unpackb_decompression_error x11
           (slice_from _HEADER_BLOCK_SIZE record_a1_truncated) Ref.Gzip.EOFError).
  - reflexivity.
  - vm_compute; reflexivity.
Defined.

Lemma unpackb_without_msgpack_bit_witness :
  Z.testbit (int_of_byte x10) 0 = false /\
  unpackb [x00; x00]
  = Raise (Exn "ValueError" "Unsupported document format: 0") /\
  unpackb (x00 :: x10 :: slice_from _HEADER_BLOCK_SIZE record_a1_gzip)
  = Raise (Exn "ValueError" "Unsupported document format: 16") /\
  unpackb (x00 :: x10 :: slice_from _HEADER_BLOCK_SIZE record_a1_truncated)
  = Raise Ref.Gzip.EOFError.
Proof.
  split; [reflexivity|].
  split; [|split].
  - apply (proj1 (unpackb_without_msgpack_bit x00 [] eq_refl)). reflexivity.
  - apply (proj1 (proj2 (unpackb_without_msgpack_bit x10
             (slice_from _HEADER_BLOCK_SIZE record_a1_gzip) eq_refl))
             [x81; xa1; x61; x01]);
      vm_compute; reflexivity.
  - apply (proj2 (proj2 (unpackb_without_msgpack_bit x10
             (slice_from _HEADER_BLOCK_SIZE record_a1_truncated) eq_refl)));
      vm_compute; reflexivity.
Defined.

Lemma unpackb_reserved_bits_accepted_witness :
  Z.testbit (int_of_byte xef) 0 = true /\
  Z.testbit (int_of_byte xef) 4 = false /\
  msgpack_unpackb [x81; xa1; x61; x01] false = Ok doc_a1 /\
  unpackb [x00; xef; x81; xa1; x61; x01] = Ok doc_a1.
Proof.
  split; [reflexivity|].
  split; [reflexivity|].
  split; [vm_compute; reflexivity|].
  apply (unpackb_reserved_bits_accepted xef [x81; xa1; x61; x01] doc_a1);
    vm_compute; reflexivity.
Defined.

Lemma unpackb_reserved_bits_ignored_witness :
  Z.testbit (int_of_byte xff) 0 = true /\
  unpackb (x00 :: xff :: slice_from _HEADER_BLOCK_SIZE record_a1_gzip)
  = unpackb (x00 :: x11 :: slice_from _HEADER_BLOCK_SIZE record_a1_gzip).
Proof.
  split; [reflexivity|].
  apply (unpackb_reserved_bits_ignored xff x11
           (slice_from _HEADER_BLOCK_SIZE record_a1_gzip));
    reflexivity.
Defined.


(** C9 as it is written fails on this record: it is the compressed record
    of [{"a": 1}] with its payload truncated to nothing, the header kept
    and the GZIP bit set.  [gzip.decompress] raises nothing on the empty
    payload, it returns no bytes; [unpackb] fails with the [ValueError] of
    msgpack, which is no error of the compression layer. *)
Lemma unpackb_gzip_empty_payload :
  slice_to _HEADER_BLOCK_SIZE record_a1_gzip = [x00; x11] /\
  Z.testbit (int_of_byte x11) 4 = true /\
  gzip_decompress [] = Ok [] /\
  unpackb [x00; x11]
  = Raise (Ref.Msgpack.ValueError "Unpack failed: incomplete input").
Proof. repeat split; vm_compute; reflexivity. Qed.

(** C4 as it is written fails on this record: the MSGPACK bit is unset, the
    GZIP bit is set and the payload is no gzip member, so [unpackb] raises
    what [gzip.decompress] raises and not the format [ValueError]. *)
Lemma unpackb_without_msgpack_bit_gzip_error :
  Z.testbit (int_of_byte x10) 0 = false /\
  unpackb [x00; x10; x01] = Raise (Ref.Gzip.BadGzipFile "Not a gzipped file") /\
  unpackb [x00; x10; x01]
  <> Raise (Exn "ValueError" "Unsupported document format: 16").
Proof.
  split; [reflexivity|].
  split; [vm_compute; reflexivity|].
  vm_compute. discriminate.
Qed.

(** C5 as it is written fails on these records: reserved flag bits are set
    and [unpackb] returns the document. *)
Lemma unpackb_reserved_bit_set_decodes :
  Z.testbit (int_of_byte x03) 1 = true /\
  unpackb [x00; x03; xc0] = Ok PyNone /\
  Z.land (int_of_byte xef) 0xEE = 0xEE /\
  unpackb [x00; xef; x81; xa1; x61; x01] = Ok doc_a1.
Proof. repeat split; vm_compute; reflexivity. Qed.

End Reference.

(** ** Further properties, on the reference codecs *)

Section ReferenceFurther.

Import Pecyn Sample.

#[local] Existing Instance Ref.codecs.

Local Ltac Zify.zify_post_hook ::= Z.to_euclidean_division_equations.

Lemma encode_length (data : bytes) :
  List.length (Ref.Base64.encode data) = (4 * ((List.length data + 2) / 3))%nat.
Proof.
  induction data as [|a|a b|a b c rest IH] using bytes_ind3;
    try reflexivity.
  cbn [Ref.Base64.encode]. cbv zeta. cbn [List.length]. rewrite IH.
  replace (S (S (S (List.length rest))) + 2)%nat
    with (List.length rest + 2 + 1 * 3)%nat by lia.
  rewrite Nat.div_add by discriminate. lia.
Qed.

Lemma encode_alphabet (data : bytes) :
  Forall (fun b => Ref.Base64.a2b_char (Ref.nb b) <> None \/ Ref.nb b = 61%N)
    (Ref.Base64.encode data).
Proof.
  assert (Hsextet : forall n k,
            Ref.Base64.a2b_char (Ref.nb (Ref.Base64.sextet n k)) <> None
            \/ Ref.nb (Ref.Base64.sextet n k) = 61%N).
  { intros n k. left. unfold Ref.Base64.sextet.
    destruct (a2b_b2a_char _ (sextet_small n k)) as (H & _). rewrite H. discriminate. }
  induction data as [|a|a b|a b c rest IH] using bytes_ind3;
    cbn [Ref.Base64.encode]; cbv zeta;
    repeat first [ apply Forall_nil | exact IH
                 | apply Forall_cons; [first [apply Hsextet | right; reflexivity]|] ].
Qed.

(** X12. On the reference codecs [pack] returns text whenever [packb]
    returns a record: four characters for every three bytes of the record,
    each a character of the Base64 alphabet or [=], and no newline. *)
Theorem reference_pack_text (now : Z) (D : pyobj) (compress : option pyobj)
    (record : bytes) :
  packb now D compress = Ok record ->
  exists text : str,
    pack now D compress = Ok text /\
    List.length text = (4 * ((List.length record + 2) / 3))%nat /\
    Forall (fun ch => Ref.Base64.a2b_char ch <> None \/ ch = 61%N) text /\
    ~ In 10%N text.
Proof.
  intros Hrecord. rewrite pack_packb, Hrecord. cbn [bind].
  cbn [bytes_decode b2a_base64 Ref.codecs]. unfold Ref.Base64.b2a_base64.
  rewrite app_nil_r, (utf8_decode_ascii _ (encode_ascii record)).
  assert (Halphabet : Forall (fun ch => Ref.Base64.a2b_char ch <> None \/ ch = 61%N)
                        (map Ref.nb (Ref.Base64.encode record))).
  { apply Forall_map. apply encode_alphabet. }
  eexists. split; [reflexivity|]. split; [|split].
  - rewrite length_map. apply encode_length.
  - exact Halphabet.
  - intros Hin. rewrite Forall_forall in Halphabet.
    destruct (Halphabet _ Hin) as [H|H]; [apply H; reflexivity|discriminate H].
Qed.

(** *** The further properties at work *)

Lemma packb_raises_iff_witness :
  msgpack_packb (PyInt (2 ^ 64)) true
  = Raise (Exn "OverflowError" "Integer value out of range") /\
  packb clock (PyInt (2 ^ 64)) (Some (PyBool true))
  = Raise (Exn "OverflowError" "Integer value out of range").
Proof.
  split; [vm_compute; reflexivity|].
  apply (proj2 (packb_raises_iff clock (PyInt (2 ^ 64)) (Some (PyBool true)) _)).
  left. vm_compute; reflexivity.
Defined.

Lemma unpack_pack_through_bytes_witness :
  base64_restores (record_of doc_a1 false) /\
  (text <- pack clock doc_a1 None ;; unpack text)
  = (record <- packb clock doc_a1 None ;; unpackb record).
Proof.
  split; [vm_compute; reflexivity|].
  apply (unpack_pack_through_bytes clock doc_a1 None).
  intros record Hrecord. vm_compute in Hrecord. injection Hrecord as <-.
  vm_compute; reflexivity.
Defined.

Lemma unpackb_returns_iff_witness :
  Z.testbit (int_of_byte x01) 0 = true /\
  msgpack_unpackb [x81; xa1; x61; x01] false = Ok doc_a1 /\
  unpackb [x00; x01; x81; xa1; x61; x01] = Ok doc_a1.
Proof.
  split; [reflexivity|]. split; [vm_compute; reflexivity|].
  apply (proj2 (unpackb_returns_iff [x00; x01; x81; xa1; x61; x01] doc_a1)).
  exists x01, [x81; xa1; x61; x01], [x81; xa1; x61; x01].
  repeat split; vm_compute; reflexivity.
Defined.

Lemma unpackb_payload_decode_error_witness :
  Z.testbit (int_of_byte x01) 0 = true /\
  msgpack_unpackb [xc1] false
  = Raise (Exn "msgpack.FormatError" "Unknown header: 0xc1") /\
  unpackb [x00; x01; xc1] = Raise (Exn "msgpack.FormatError" "Unknown header: 0xc1").
Proof.
  split; [reflexivity|]. split; [vm_compute; reflexivity|].
  apply (unpackb_payload_decode_error x01 [xc1] [xc1]);
    vm_compute; reflexivity.
Defined.

Lemma unpackb_exceptions_witness :
  unpackb [x00; x10; x01] = Raise (Ref.Gzip.BadGzipFile "Not a gzipped file") /\
  exists (flags : byte) (payload : bytes),
    [x00; x10; x01] = x00 :: flags :: payload /\
    Z.testbit (int_of_byte flags) 4 = true /\
    gzip_decompress payload = Raise (Ref.Gzip.BadGzipFile "Not a gzipped file").
Proof.
  split; [vm_compute; reflexivity|].
  destruct (unpackb_exceptions [x00; x10; x01]
              (Ref.Gzip.BadGzipFile "Not a gzipped file"))
    as [[Hshort _]|[(v & f & p & Hrecord & Hversion & _)|[H|[H|H]]]].
  - vm_compute; reflexivity.
  - exfalso. cbn [List.length] in Hshort. lia.
  - exfalso. injection Hrecord as <- _ _. apply Hversion. reflexivity.
  - exact H.
  - exfalso. destruct H as (f & p & _ & _ & He). discriminate He.
  - exfalso. destruct H as (f & p & blob & Hrecord & Hbit & _).
    injection Hrecord as <- _. vm_compute in Hbit. discriminate Hbit.
Defined.

Lemma packb_truthy_compress_witness :
  truth (PyStr (text "no")) = true /\
  packb clock doc_a1 (Some (PyStr (text "no")))
  = packb clock doc_a1 (Some (PyBool true)).
Proof.
  split; [reflexivity|].
  apply (proj1 (packb_truthy_compress clock doc_a1 (PyStr (text "no")) eq_refl)).
Defined.

Lemma unpack_short_text_witness :
  a2b_base64 [] = Ok [] /\ (List.length (@nil byte) < 2)%nat /\
  unpack [] = Raise (Exn "ValueError" "Invalid header block").
Proof.
  split; [reflexivity|]. split; [cbn; lia|].
  apply (unpack_short_text [] []); [reflexivity|cbn; lia].
Defined.

Lemma reference_pack_text_witness :
  packb clock doc_a1 None = Ok [x00; x01; x81; xa1; x61; x01] /\
  exists text : str,
    pack clock doc_a1 None = Ok text /\
    List.length text = (4 * ((List.length [x00; x01; x81; xa1; x61; x01] + 2) / 3))%nat /\
    Forall (fun ch => Ref.Base64.a2b_char ch <> None \/ ch = 61%N) text /\
    ~ In 10%N text.
Proof.
  split; [vm_compute; reflexivity|].
  apply (reference_pack_text clock doc_a1 None [x00; x01; x81; xa1; x61; x01]).
  vm_compute; reflexivity.
Defined.

End ReferenceFurther.
